(** * Block-structure renderer hard-codes (mcw-calc)

    A shallow embedding of [src/tools/blockStructureRenderer/hardcodes.ts]:
    face culling ([hardCodedSkipRendering]), shading ([getShade]), the cuboid
    builder ([boxModel]), the special-renderer registry
    ([hardCodedRenderers]) and the block-entity renderers.

    Conventions of the embedding.
    - JavaScript strings are [string]s; [undefined] results of property and
      array reads are [None].
    - JavaScript objects used as maps ([blockProperties], the face table of a
      cuboid, [dyeColorMapping]) are [gmap]s.
    - Numbers that only go through additions (UV coordinates, cuboid
      corners) and the shade constants are exact rationals [Q].  The source
      computes with binary64 doubles, so statements about numeric values are
      made only for whole numbers small enough for the doubles to be exact.
      The banner sway, which goes through [Math.cos], is not embedded.
    - The scene and the console are an explicit [World] threaded through the
      renderers.  A fragment in the scene records the baked model, the block
      state and the material selector handed to the sink; the
      [THREE.Matrix4] world transform is not part of the model. *)

From Stdlib Require Import ZArith QArith Lia Ascii String List Bool.
From stdpp Require Import base decidable option list countable gmap strings.

Local Open Scope string_scope.
Local Open Scope list_scope.

(* ===================================================================== *)
(** ** JavaScript string primitives used by the source *)
(* ===================================================================== *)

Module JS.

(** [s.endsWith(t)]: some suffix of [s] is [t]. *)
Fixpoint endsWith (s t : string) : bool :=
  String.eqb s t
  || match s with
     | EmptyString => false
     | String _ s' => endsWith s' t
     end.

(** [s.includes(t)]: [t] is a prefix of some suffix of [s]. *)
Fixpoint includes (s t : string) : bool :=
  String.prefix t s
  || match s with
     | EmptyString => false
     | String _ s' => includes s' t
     end.

(** [s.indexOf(c)] for a one-character needle; [-1] when absent. *)
Fixpoint indexOf (s : string) (c : ascii) : Z :=
  match s with
  | EmptyString => (-1)%Z
  | String c' s' =>
      if Ascii.eqb c' c then 0%Z
      else let i := indexOf s' c in
           if (i <? 0)%Z then (-1)%Z else (i + 1)%Z
  end.

(** [s.substring(a, b)]: both indices are clamped to [0 .. length] and
    exchanged when [a > b]. *)
Definition substring (s : string) (a b : Z) : string :=
  let len := Z.of_nat (String.length s) in
  let clamp i := Z.max 0 (Z.min i len) in
  let a' := clamp a in
  let b' := clamp b in
  let lo := Z.min a' b' in
  let hi := Z.max a' b' in
  String.substring (Z.to_nat lo) (Z.to_nat (hi - lo)) s.

(** *** Regular expressions

    The patterns of the source all have the shape [/.*literal$/]; the three
    constructs they use are embedded with the backtracking semantics of
    [RegExp.prototype.test] (no flags: [.] excludes line terminators, [$]
    is the end of the input, the match may start anywhere). *)

Inductive RegExpTerm : Type :=
| AnyStar                 (* .* *)
| Chr (c : ascii)         (* a literal character *)
| EndAnchor.              (* $ *)

Definition RegExp : Type := list RegExpTerm.

Definition isLineTerminator (c : ascii) : bool :=
  Ascii.eqb c "010"%char || Ascii.eqb c "013"%char.

Fixpoint matchesAt (r : RegExp) (s : string) : bool :=
  match r with
  | [] => true
  | Chr c :: r' =>
      match s with
      | String c' s' => Ascii.eqb c c' && matchesAt r' s'
      | EmptyString => false
      end
  | EndAnchor :: r' =>
      match s with
      | EmptyString => matchesAt r' s
      | String _ _ => false
      end
  | AnyStar :: r' =>
      (fix star (s : string) : bool :=
         match s with
         | String c s' => (negb (isLineTerminator c) && star s') || matchesAt r' s
         | EmptyString => matchesAt r' s
         end) s
  end.

(** [r.test(s)]: try every start position from the left. *)
Fixpoint test (r : RegExp) (s : string) : bool :=
  matchesAt r s
  || match s with
     | EmptyString => false
     | String _ s' => test r s'
     end.

Fixpoint literal (s : string) : RegExp :=
  match s with
  | EmptyString => []
  | String c s' => Chr c :: literal s'
  end.

(** [/.*lit$/] *)
Definition anyThenSuffix (lit : string) : RegExp :=
  AnyStar :: literal lit ++ [EndAnchor].

End JS.

(* ===================================================================== *)
(** ** math.ts *)
(* ===================================================================== *)

(** Modelled from the spec: [math.ts] is not part of the sources at hand.
    The spec (section 3) gives [Direction] as the six axis-aligned
    directions with [opposite] and a horizontal/vertical classification; the
    source indexes [blockProperties] with a direction, so the enumeration
    values are the lower-case property names ([north="true"] for [NORTH] in
    section 8). *)
Inductive Direction : Type := DOWN | UP | NORTH | SOUTH | WEST | EAST.

#[global] Instance Direction_eq_dec : EqDecision Direction.
Proof. solve_decision. Defined.

Definition Direction_to_nat (d : Direction) : nat :=
  match d with
  | DOWN => 0 | UP => 1 | NORTH => 2 | SOUTH => 3 | WEST => 4 | EAST => 5
  end.

Definition Direction_of_nat (n : nat) : option Direction :=
  match n with
  | 0 => Some DOWN | 1 => Some UP | 2 => Some NORTH
  | 3 => Some SOUTH | 4 => Some WEST | 5 => Some EAST
  | _ => None
  end.

#[global] Program Instance Direction_countable : Countable Direction :=
  inj_countable Direction_to_nat Direction_of_nat _.
Next Obligation. by intros []. Qed.

(** Modelled from the spec: the string value of a [Direction] member. *)
Definition directionName (d : Direction) : string :=
  match d with
  | DOWN => "down" | UP => "up" | NORTH => "north"
  | SOUTH => "south" | WEST => "west" | EAST => "east"
  end.

(** Modelled from the spec: [oppositeDirection] of [math.ts]. *)
Definition oppositeDirection (d : Direction) : Direction :=
  match d with
  | DOWN => UP | UP => DOWN | NORTH => SOUTH
  | SOUTH => NORTH | WEST => EAST | EAST => WEST
  end.

(** Modelled from the spec: [isHorizontalDirection] of [math.ts]. *)
Definition isHorizontalDirection (d : Direction) : bool :=
  match d with
  | NORTH | SOUTH | WEST | EAST => true
  | DOWN | UP => false
  end.

(** Modelled from the spec: [isVerticalDirection] of [math.ts]. *)
Definition isVerticalDirection (d : Direction) : bool :=
  match d with
  | DOWN | UP => true
  | NORTH | SOUTH | WEST | EAST => false
  end.

(** Modelled from the spec: [Rotation] of [math.ts], a pair of degrees
    about the X and Y axes. *)
Record Rotation : Type := mkRotation { rot_x : Z; rot_y : Z }.

(** Modelled from the spec: [IDENTITY_ROTATION] of [math.ts], no turn about
    either axis. *)
Definition IDENTITY_ROTATION : Rotation := mkRotation 0 0.

(* ===================================================================== *)
(** ** renderer.ts: block states *)
(* ===================================================================== *)

(** Modelled from the spec: the [BlockState] type of [renderer.ts]
    (section 3), a block name with string-valued properties. *)
Record BlockState : Type := mkBlockState {
  blockName : string;
  blockProperties : gmap string string
}.

(** [o[key] === value] on a string map. *)
Definition propIs (props : gmap string string) (key value : string) : bool :=
  bool_decide (props !! key = Some value).

(* ===================================================================== *)
(** ** Face culling *)
(* ===================================================================== *)

Inductive NameTest : Type :=
| Exact (s : string)
| Pattern (r : JS.RegExp).

Definition nameTestApplies (name : string) (nameTest : NameTest) : bool :=
  match nameTest with
  | Pattern r => JS.test r name
  | Exact s => String.eqb s name
  end.

Definition checkNameInSet (name : string) (nameSet : list NameTest) : bool :=
  existsb (nameTestApplies name) nameSet.

Definition halfTransparentBlocks : list NameTest :=
  [ Exact "frosted_ice";
    Exact "ice";
    Exact "honey_block";
    Exact "slime_block";
    Pattern (JS.anyThenSuffix "copper_grate");
    Exact "glass";
    Pattern (JS.anyThenSuffix "stained_glass");
    Exact "tinted_glass" ].

Definition leavesBlocks : JS.RegExp := JS.anyThenSuffix "_leaves".

Definition hardCodedSkipRendering
    (thisBlock otherBlock : BlockState) (direction : Direction) : bool :=
  if String.eqb (blockName thisBlock) "powder_snow"
     && String.eqb (blockName otherBlock) "powder_snow"
  then true
  else if String.eqb (blockName thisBlock) "iron_bars"
          && String.eqb (blockName otherBlock) "iron_bars"
          && isHorizontalDirection direction
          && propIs (blockProperties thisBlock) (directionName direction) "true"
          && propIs (blockProperties otherBlock)
                    (directionName (oppositeDirection direction)) "true"
  then true
  else if String.eqb (blockName thisBlock) "mangrove_roots"
          && String.eqb (blockName otherBlock) "mangrove_roots"
          && isVerticalDirection direction
  then true
  else checkNameInSet (blockName thisBlock) halfTransparentBlocks
       && String.eqb (blockName thisBlock) (blockName otherBlock).

(* ===================================================================== *)
(** ** Shading *)
(* ===================================================================== *)

Definition getShade (direction : Direction) (shade : bool) : Q :=
  let constantAmbientLight := false in
  if negb shade then (if constantAmbientLight : bool then 0.9 else 1)%Q
  else
    match direction with
    | DOWN => (if constantAmbientLight : bool then 0.9 else 0.5)%Q
    | UP => (if constantAmbientLight : bool then 0.9 else 1)%Q
    | NORTH | SOUTH => 0.8%Q
    | WEST | EAST => 0.6%Q
    end.

(* ===================================================================== *)
(** ** definitions.ts, model.ts, texture.ts: models and materials *)
(* ===================================================================== *)

(** A texture slot read from an array: [None] is JavaScript's [undefined]. *)
Definition TextureId : Type := option N.

(** Modelled from the spec: [ModelFace] of [definitions.ts] (section 3),
    with the three fields [boxModel] writes; [uv] is the four-number array
    [[u0, v0, u1, v1]]. *)
Record ModelFace : Type := mkModelFace {
  face_texture : TextureId;
  face_uv : list Q;
  face_rotation : option Z
}.

(** Modelled from the spec: a cuboid element (section 3), with the four
    fields [boxModel] writes. *)
Record ModelElement : Type := mkModelElement {
  el_from : list Q;
  el_to : list Q;
  el_shade : bool;
  el_faces : gmap Direction ModelFace
}.

(** The object literal [{ elements: [...] }] handed to [bakeModel]. *)
Record BlockModel : Type := mkBlockModel { elements : list ModelElement }.

(** Modelled from the spec: [BakedModel] of [model.ts] (sections 3 and 4.4),
    the cuboid elements together with the recorded rotation. *)
Record BakedModel : Type := mkBakedModel {
  baked_elements : list ModelElement;
  baked_rotation : Rotation;
  baked_uvlock : bool
}.

Inductive RenderType : Type := solid | cutout | translucent.
Inductive Side : Type := FrontSide | DoubleSide.

(** The part of [THREE.MeshBasicMaterial] the renderers touch. *)
Record MeshBasicMaterial : Type := mkMaterial {
  mat_animated : bool;
  mat_pass : RenderType;
  mat_color : option N;
  mat_side : Side
}.

(** Modelled from the spec: [MaterialPicker] of [texture.ts] (section 6),
    a material per render pass for static and for animated textures. *)
Record MaterialPicker : Type := mkMaterialPicker {
  staticTexture : RenderType -> MeshBasicMaterial;
  animatedTexture : RenderType -> MeshBasicMaterial
}.

(** Modelled from the spec: [BlockStateModelManager] of [model.ts]
    (section 6), the ordered texture slots of a block name. *)
Record BlockStateModelManager : Type := mkModelManager {
  getSpecialBlocksData : string -> list N
}.

(** Modelled from the spec: [bakeModel] of [model.ts] is not part of the
    sources at hand.  Per sections 3 and 4.4 a baked model keeps the cuboid
    elements it was built from and records the rotation for the caller. *)
Definition bakeModel (materialPicker : MaterialPicker) (model : BlockModel)
    (rotation : Rotation) (uvlock : bool) : BakedModel :=
  mkBakedModel (elements model) rotation uvlock.

(* ===================================================================== *)
(** ** The cuboid builder *)
(* ===================================================================== *)

(** [visibleFaces.includes(d)] *)
Definition includesDirection (visibleFaces : list Direction) (d : Direction) : bool :=
  bool_decide (d ∈ visibleFaces).

(** [if (visibleFaces.includes(d)) directionFaces[d] = face] *)
Definition putFace (visibleFaces : list Direction) (d : Direction)
    (face : ModelFace) (directionFaces : gmap Direction ModelFace)
  : gmap Direction ModelFace :=
  if includesDirection visibleFaces d then <[d := face]> directionFaces
  else directionFaces.

Definition directionFacesOf (texture : TextureId) (size : Q * Q * Q)
    (texOff : Q * Q) (visibleFaces : list Direction) (mirror : bool)
  : gmap Direction ModelFace :=
  let '(width, height, depth) := size in
  let '(texOffX, texOffY) := texOff in
  let directionFaces : gmap Direction ModelFace := ∅ in
  (if mirror then
    let directionFaces := putFace visibleFaces DOWN
      (mkModelFace texture
         [texOffX + depth + width; texOffY; texOffX + depth; texOffY + depth] None)
      directionFaces in
    let directionFaces := putFace visibleFaces UP
      (mkModelFace texture
         [texOffX + depth + width; texOffY;
          texOffX + depth + width + width; texOffY + depth] (Some 180%Z))
      directionFaces in
    let directionFaces := putFace visibleFaces WEST
      (mkModelFace texture
         [texOffX + depth; texOffY + depth + height; texOffX; texOffY + depth] None)
      directionFaces in
    let directionFaces := putFace visibleFaces NORTH
      (mkModelFace texture
         [texOffX + depth; texOffY + depth + height;
          texOffX + depth + width; texOffY + depth] None)
      directionFaces in
    let directionFaces := putFace visibleFaces EAST
      (mkModelFace texture
         [texOffX + depth + width + depth; texOffY + depth + height;
          texOffX + depth + width; texOffY + depth] None)
      directionFaces in
    let directionFaces := putFace visibleFaces SOUTH
      (mkModelFace texture
         [texOffX + depth + width + depth; texOffY + depth + height;
          texOffX + depth + width + depth + width; texOffY + depth] None)
      directionFaces in
    directionFaces
  else
    let directionFaces := putFace visibleFaces DOWN
      (mkModelFace texture
         [texOffX + depth; texOffY; texOffX + depth + width; texOffY + depth] None)
      directionFaces in
    let directionFaces := putFace visibleFaces UP
      (mkModelFace texture
         [texOffX + depth + width + width; texOffY;
          texOffX + depth + width; texOffY + depth] (Some 180%Z))
      directionFaces in
    let directionFaces := putFace visibleFaces WEST
      (mkModelFace texture
         [texOffX + depth; texOffY + depth + height; texOffX; texOffY + depth] None)
      directionFaces in
    let directionFaces := putFace visibleFaces NORTH
      (mkModelFace texture
         [texOffX + depth + width; texOffY + depth + height;
          texOffX + depth; texOffY + depth] None)
      directionFaces in
    let directionFaces := putFace visibleFaces EAST
      (mkModelFace texture
         [texOffX + depth + width + depth; texOffY + depth + height;
          texOffX + depth + width; texOffY + depth] None)
      directionFaces in
    let directionFaces := putFace visibleFaces SOUTH
      (mkModelFace texture
         [texOffX + depth + width + depth + width; texOffY + depth + height;
          texOffX + depth + width + depth; texOffY + depth] None)
      directionFaces in
    directionFaces)%Q.

(** The model description [boxModel] hands to [bakeModel]. *)
Definition boxModelDescription (texture : TextureId) (from size : Q * Q * Q)
    (texOff : Q * Q) (poseOff : Q * Q * Q) (visibleFaces : list Direction)
    (mirror shade : bool) : BlockModel :=
  let '(fromX, fromY, fromZ) := from in
  let '(width, height, depth) := size in
  let '(poseOffX, poseOffY, poseOffZ) := poseOff in
  mkBlockModel
    [ mkModelElement
        [fromX + poseOffX; fromY + poseOffY; fromZ + poseOffZ]%Q
        [fromX + width + poseOffX; fromY + height + poseOffY;
         fromZ + depth + poseOffZ]%Q
        shade
        (directionFacesOf texture size texOff visibleFaces mirror) ].

Definition boxModel (texture : TextureId) (materialPicker : MaterialPicker)
    (from size : Q * Q * Q) (texOff : Q * Q) (poseOff : Q * Q * Q)
    (rotation : Rotation) (visibleFaces : list Direction)
    (mirror shade : bool) : BakedModel :=
  bakeModel materialPicker
    (boxModelDescription texture from size texOff poseOff visibleFaces mirror shade)
    rotation false.

(** The default values of the optional parameters of [boxModel]. *)
Definition defaultPoseOff : Q * Q * Q := (0, 0, 0)%Q.
Definition defaultVisibleFaces : list Direction :=
  [DOWN; UP; WEST; NORTH; EAST; SOUTH].

(** [boxModel(texture, materialPicker, from, size, texOff)] *)
Definition boxModel5 (texture : TextureId) (materialPicker : MaterialPicker)
    (from size : Q * Q * Q) (texOff : Q * Q) : BakedModel :=
  boxModel texture materialPicker from size texOff defaultPoseOff
    IDENTITY_ROTATION defaultVisibleFaces false true.

(** [boxModel(texture, materialPicker, from, size, texOff, poseOff, rotation)] *)
Definition boxModel7 (texture : TextureId) (materialPicker : MaterialPicker)
    (from size : Q * Q * Q) (texOff : Q * Q) (poseOff : Q * Q * Q)
    (rotation : Rotation) : BakedModel :=
  boxModel texture materialPicker from size texOff poseOff rotation
    defaultVisibleFaces false true.

(* ===================================================================== *)
(** ** The scene sink and the console *)
(* ===================================================================== *)

Local Open Scope Q_scope.

(** One call of the sink: the baked model, the block it belongs to, the
    material selector and the optional trailing boolean of the call. *)
Record Fragment : Type := mkFragment {
  frag_model : BakedModel;
  frag_block : BlockState;
  frag_material : bool -> MeshBasicMaterial;
  frag_flag : bool
}.

(** A [console.warn(message, value)] call. *)
Record Warning : Type := mkWarning {
  warn_message : string;
  warn_value : option string
}.

Record World : Type := mkWorld {
  scene : list Fragment;
  console : list Warning
}.

Definition emptyWorld : World := mkWorld [] [].

(** Modelled from the spec: [renderModelNoCullsWithMS] of [model.ts] is not
    part of the sources at hand.  Per section 6 the scene sink accepts the
    emitted fragment (baked cuboid, material-selection function, world
    transform) and is never read back. *)
Definition renderModelNoCullsWithMS (model : BakedModel) (block : BlockState)
    (material : bool -> MeshBasicMaterial) (flag : bool) (w : World) : World :=
  mkWorld (scene w ++ [mkFragment model block material flag]) (console w).

Definition consoleWarn (message : string) (value : option string) (w : World) : World :=
  mkWorld (scene w) (console w ++ [mkWarning message value]).

(** Number of cuboid elements held by the fragments of a scene. *)
Definition cuboidCount (fragments : list Fragment) : nat :=
  list_sum (map (fun f => length (baked_elements (frag_model f))) fragments).

(** The shared signature of the registry's render functions.  The scene is
    the [scene] component of the [World]; [nameMapping] and [blockStructure]
    are read by none of the renderers. *)
Definition RenderFunc : Type :=
  Z -> Z -> Z -> BlockState -> BlockStateModelManager -> MaterialPicker ->
  World -> World.

Definition plainMaterial (materialPicker : MaterialPicker) (pass : RenderType)
  : bool -> MeshBasicMaterial :=
  fun animated =>
    if animated then animatedTexture materialPicker pass
    else staticTexture materialPicker pass.

(** [material.clone()] followed by [materialClone.side = THREE.DoubleSide]. *)
Definition doubleSided (m : MeshBasicMaterial) : MeshBasicMaterial :=
  mkMaterial (mat_animated m) (mat_pass m) (mat_color m) DoubleSide.

(** [materialClone.color.set(c)]; [THREE.Color.set] ignores [undefined]. *)
Definition colorSet (c : option N) (m : MeshBasicMaterial) : MeshBasicMaterial :=
  match c with
  | Some hex => mkMaterial (mat_animated m) (mat_pass m) (Some hex) (mat_side m)
  | None => m
  end.

Definition fromFacingToRotation (facing : option string) : Rotation :=
  match facing with
  | Some "south" => mkRotation 0 0
  | Some "west" => mkRotation 0 90
  | Some "north" => mkRotation 0 180
  | Some "east" => mkRotation 0 270
  | _ => mkRotation 0 0
  end.

(* ===================================================================== *)
(** ** Chest *)
(* ===================================================================== *)

Definition renderChest : RenderFunc :=
  fun x y z blockState modelManager materialPicker w =>
  let specials := getSpecialBlocksData modelManager (blockName blockState) in
  let normalTexture := specials !! 0%nat in
  let leftTexture := specials !! 1%nat in
  let rightTexture := specials !! 2%nat in
  let facing := blockProperties blockState !! "facing" in
  let rotation := fromFacingToRotation facing in
  let models : option (BakedModel * BakedModel * BakedModel) :=
    if propIs (blockProperties blockState) "type" "single" then
      Some (boxModel7 normalTexture materialPicker (1, 0, 1) (14, 10, 14) (0, 19) (0, 0, 0) rotation,
            boxModel7 normalTexture materialPicker (1, 0, 0) (14, 5, 14) (0, 0) (0, 9, 1) rotation,
            boxModel7 normalTexture materialPicker (7, -2, 14) (2, 4, 1) (0, 0) (0, 9, 1) rotation)%Q
    else if propIs (blockProperties blockState) "type" "left" then
      Some (boxModel7 leftTexture materialPicker (0, 0, 1) (15, 10, 14) (0, 19) (0, 0, 0) rotation,
            boxModel7 leftTexture materialPicker (0, 0, 0) (15, 5, 14) (0, 0) (0, 9, 1) rotation,
            boxModel7 leftTexture materialPicker (0, -2, 14) (1, 4, 1) (0, 0) (0, 9, 1) rotation)%Q
    else if propIs (blockProperties blockState) "type" "right" then
      Some (boxModel7 rightTexture materialPicker (1, 0, 1) (15, 10, 14) (0, 19) (0, 0, 0) rotation,
            boxModel7 rightTexture materialPicker (1, 0, 0) (15, 5, 14) (0, 0) (0, 9, 1) rotation,
            boxModel7 rightTexture materialPicker (15, -2, 14) (1, 4, 1) (0, 0) (0, 9, 1) rotation)%Q
    else None in
  match models with
  | None =>
      consoleWarn "Unknown chest type" (blockProperties blockState !! "type") w
  | Some (modelBottom, modelLid, modelLock) =>
      let material := plainMaterial materialPicker cutout in
      let w := renderModelNoCullsWithMS modelBottom blockState material false w in
      let w := renderModelNoCullsWithMS modelLid blockState material false w in
      let w := renderModelNoCullsWithMS modelLock blockState material false w in
      w
  end.

(* ===================================================================== *)
(** ** Shulker box *)
(* ===================================================================== *)

Definition renderShulkerBox : RenderFunc :=
  fun x y z blockState modelManager materialPicker w =>
  let texture := getSpecialBlocksData modelManager (blockName blockState) !! 0%nat in
  let facing := blockProperties blockState !! "facing" in
  let rotation :=
    match facing with
    | Some "up" => mkRotation 180 0
    | Some "north" => mkRotation (-90) 0
    | Some "south" => mkRotation 90 0
    | Some "west" => mkRotation (-90) (-90)
    | Some "east" => mkRotation (-90) 90
    | _ => IDENTITY_ROTATION
    end in
  let modelLid :=
    boxModel7 texture materialPicker (-8, -16, -8) (16, 12, 16) (0, 0) (0, 24, 0) rotation in
  let modelBase :=
    boxModel7 texture materialPicker (-8, -8, -8) (16, 8, 16) (0, 28) (0, 24, 0) rotation in
  let material := plainMaterial materialPicker cutout in
  let w := renderModelNoCullsWithMS modelLid blockState material false w in
  let w := renderModelNoCullsWithMS modelBase blockState material false w in
  w.

(* ===================================================================== *)
(** ** Books: lectern and enchanting table *)
(* ===================================================================== *)

(** The four numbers [[rotAngle, openScale, flipPage1Percent,
    flipPage2Percent]] only enter the lid and page matrices. *)
Definition renderBook (block : BlockState) (texture : TextureId)
    (materialPicker : MaterialPicker) (pose : Q * Q * Q * Q) (w : World) : World :=
  let modelLeftLid := boxModel5 texture materialPicker (-6, -5, -0.005) (6, 10, 0.005) (0, 0) in
  let modelRightLid := boxModel5 texture materialPicker (0, -5, -0.005) (6, 10, 0.005) (16, 0) in
  let modelSeam := boxModel5 texture materialPicker (-1, -5, 0) (2, 10, 0.005) (12, 0) in
  let modelLeftPages := boxModel5 texture materialPicker (0, -4, -0.99) (5, 8, 1) (0, 10) in
  let modelRightPages := boxModel5 texture materialPicker (0, -4, -0.01) (5, 8, 1) (12, 10) in
  let modelFlipPage := boxModel5 texture materialPicker (0, -4, 0) (5, 8, 0.005) (24, 10) in
  let material := plainMaterial materialPicker solid in
  let w := renderModelNoCullsWithMS modelLeftLid block material true w in
  let w := renderModelNoCullsWithMS modelRightLid block material true w in
  let w := renderModelNoCullsWithMS modelSeam block material true w in
  let w := renderModelNoCullsWithMS modelLeftPages block material true w in
  let w := renderModelNoCullsWithMS modelRightPages block material true w in
  let w := renderModelNoCullsWithMS modelFlipPage block material true w in
  let w := renderModelNoCullsWithMS modelFlipPage block material true w in
  w.

Definition renderLecternBlock : RenderFunc :=
  fun x y z blockState modelManager materialPicker w =>
  if propIs (blockProperties blockState) "has_book" "false" then w
  else
    let texture := getSpecialBlocksData modelManager (blockName blockState) !! 0%nat in
    let rotation := fromFacingToRotation (blockProperties blockState !! "facing") in
    renderBook blockState texture materialPicker (0, 1.2, 0.1, 0.9) w.

Definition renderEnchantTable : RenderFunc :=
  fun x y z blockState modelManager materialPicker w =>
  let texture := getSpecialBlocksData modelManager (blockName blockState) !! 0%nat in
  renderBook blockState texture materialPicker (0, 0, 0, 0) w.

(* ===================================================================== *)
(** ** Bell, decorated pot, bed *)
(* ===================================================================== *)

Definition renderBell : RenderFunc :=
  fun x y z blockState modelManager materialPicker w =>
  let texture := getSpecialBlocksData modelManager (blockName blockState) !! 0%nat in
  let rotation := fromFacingToRotation (blockProperties blockState !! "facing") in
  let modelBellBody :=
    boxModel7 texture materialPicker (-3, -6, -3) (6, 7, 6) (0, 0) (8, 12, 8) rotation in
  let modelBellBase :=
    boxModel7 texture materialPicker (4, 4, 4) (8, 2, 8) (0, 13) (0, 0, 0) rotation in
  let material := plainMaterial materialPicker solid in
  let w := renderModelNoCullsWithMS modelBellBody blockState material false w in
  let w := renderModelNoCullsWithMS modelBellBase blockState material false w in
  w.

Definition renderDecoratedPot : RenderFunc :=
  fun x y z blockState modelManager materialPicker w =>
  let specials := getSpecialBlocksData modelManager (blockName blockState) in
  let base := specials !! 0%nat in
  let side := specials !! 1%nat in
  let rotation := fromFacingToRotation (blockProperties blockState !! "facing") in
  let modelNeck1 := boxModel5 base materialPicker (4, 17, 4) (8, 3, 8) (0, 0) in
  let modelNeck2 := boxModel5 base materialPicker (5, 20, 5) (6, 1, 6) (0, 5) in
  let modelTopBottom := boxModel5 base materialPicker (0, 0, 0) (14, 0, 14) (-14, 13) in
  let modelSide :=
    boxModel side materialPicker (0, 0, 0) (14, 16, 0) (1, 0) (0, 0, 0)
      IDENTITY_ROTATION [NORTH] false true in
  let material := plainMaterial materialPicker solid in
  let w := renderModelNoCullsWithMS modelNeck1 blockState material true w in
  let w := renderModelNoCullsWithMS modelNeck2 blockState material true w in
  let w := renderModelNoCullsWithMS modelTopBottom blockState material true w in
  let w := renderModelNoCullsWithMS modelTopBottom blockState material true w in
  let w := renderModelNoCullsWithMS modelSide blockState material true w in
  let w := renderModelNoCullsWithMS modelSide blockState material true w in
  let w := renderModelNoCullsWithMS modelSide blockState material true w in
  let w := renderModelNoCullsWithMS modelSide blockState material true w in
  w.

Definition renderBed : RenderFunc :=
  fun x y z blockState modelManager materialPicker w =>
  let texture := getSpecialBlocksData modelManager (blockName blockState) !! 0%nat in
  let rotation := fromFacingToRotation (blockProperties blockState !! "facing") in
  let models : option (BakedModel * BakedModel * BakedModel) :=
    if propIs (blockProperties blockState) "part" "head" then
      Some (boxModel5 texture materialPicker (0, 0, 0) (16, 16, 6) (0, 0),
            boxModel5 texture materialPicker (0, 6, 0) (3, 3, 3) (50, 6),
            boxModel5 texture materialPicker (-16, 6, 0) (3, 3, 3) (50, 6))
    else if propIs (blockProperties blockState) "part" "foot" then
      Some (boxModel5 texture materialPicker (0, 0, 0) (16, 16, 6) (0, 22),
            boxModel5 texture materialPicker (0, 6, -16) (3, 3, 3) (50, 0),
            boxModel5 texture materialPicker (-16, 6, -16) (3, 3, 3) (50, 12))
    else None in
  match models with
  | None =>
      consoleWarn "Unknown bed part" (blockProperties blockState !! "part") w
  | Some (main, leftPost, rightPost) =>
      let material := plainMaterial materialPicker solid in
      let w := renderModelNoCullsWithMS main blockState material true w in
      let w := renderModelNoCullsWithMS leftPost blockState material true w in
      let w := renderModelNoCullsWithMS rightPost blockState material true w in
      w
  end.

(* ===================================================================== *)
(** ** Banner *)
(* ===================================================================== *)

(** The own keys of the object literal; [readDyeColorMapping] further down
    adds what a bracket read inherits from the prototype. *)
Definition dyeColorMapping : gmap string N :=
  list_to_map
    [ ("white", 0xf9fffe%N);
      ("orange", 0xf9801d%N);
      ("magenta", 0xc74ebd%N);
      ("light_blue", 0x3ab3da%N);
      ("yellow", 0xfed83d%N);
      ("lime", 0x80c71f%N);
      ("pink", 0xf38baa%N);
      ("gray", 0x474f52%N);
      ("light_gray", 0x9d9d97%N);
      ("cyan", 0x169c9c%N);
      ("purple", 0x8932b8%N);
      ("blue", 0x3c44aa%N);
      ("brown", 0x835432%N);
      ("green", 0x5e7c16%N);
      ("red", 0xb02e26%N);
      ("black", 0x1d1d21%N) ].

(** [dyeColorMapping[blockName.substring(0, blockName.indexOf('_'))]] *)
Definition bannerDyeColor (blockName : string) : option N :=
  dyeColorMapping !! JS.substring blockName 0 (JS.indexOf blockName "_"%char).

Definition renderBanner : RenderFunc :=
  fun x y z blockState modelManager materialPicker w =>
  let texture := getSpecialBlocksData modelManager (blockName blockState) !! 0%nat in
  let modelFlag := boxModel5 texture materialPicker (-10, 0, -2) (20, 40, 1) (0, 0) in
  let modelPole := boxModel5 texture materialPicker (-1, -30, -1) (2, 42, 2) (44, 0) in
  let modelBar := boxModel5 texture materialPicker (-10, -32, -1) (20, 2, 2) (0, 42) in
  let blockName := blockName blockState in
  let poleVisible := if JS.endsWith blockName "_wall_banner" then false else true in
  let material := plainMaterial materialPicker solid in
  let w := if poleVisible
           then renderModelNoCullsWithMS modelPole blockState material true w
           else w in
  let w := renderModelNoCullsWithMS modelBar blockState material true w in
  let dyeColor := bannerDyeColor blockName in
  let flagMaterial := fun animated : bool =>
    let material := plainMaterial materialPicker solid animated in
    doubleSided (colorSet dyeColor material) in
  renderModelNoCullsWithMS modelFlag blockState flagMaterial true w.

(* ===================================================================== *)
(** ** Skulls and heads *)
(* ===================================================================== *)

Definition renderPlainSkull (blockState : BlockState) (texture : TextureId)
    (materialPicker : MaterialPicker) (material : bool -> MeshBasicMaterial)
    (w : World) : World :=
  let modelHead := boxModel5 texture materialPicker (-4, -8, -4) (8, 8, 8) (0, 0) in
  renderModelNoCullsWithMS modelHead blockState material true w.

Definition renderDragonHead (blockState : BlockState) (texture : TextureId)
    (materialPicker : MaterialPicker) (material : bool -> MeshBasicMaterial)
    (w : World) : World :=
  let modelUpperLip := boxModel5 texture materialPicker (-6, -1, -24) (12, 5, 16) (176, 44) in
  let modelUpperHead := boxModel5 texture materialPicker (-8, -8, -10) (16, 16, 16) (112, 30) in
  let modelScale :=
    boxModel texture materialPicker (-5, -12, -4) (2, 4, 6) (0, 0) (0, 0, 0)
      IDENTITY_ROTATION [NORTH; SOUTH; WEST; EAST; UP; DOWN] true true in
  let modelNoStril :=
    boxModel texture materialPicker (-5, -3, -22) (2, 2, 4) (112, 0) (0, 0, 0)
      IDENTITY_ROTATION [NORTH; SOUTH; WEST; EAST; UP; DOWN] true true in
  let modelScale2 := boxModel5 texture materialPicker (3, -12, -4) (2, 4, 6) (0, 0) in
  let modelNoStril2 := boxModel5 texture materialPicker (3, -3, -22) (2, 2, 4) (112, 0) in
  let modelJaw := boxModel5 texture materialPicker (-6, 0, -16) (12, 4, 16) (176, 65) in
  let w := renderModelNoCullsWithMS modelUpperLip blockState material true w in
  let w := renderModelNoCullsWithMS modelUpperHead blockState material true w in
  let w := renderModelNoCullsWithMS modelScale blockState material true w in
  let w := renderModelNoCullsWithMS modelNoStril blockState material true w in
  let w := renderModelNoCullsWithMS modelScale2 blockState material true w in
  let w := renderModelNoCullsWithMS modelNoStril2 blockState material true w in
  let w := renderModelNoCullsWithMS modelJaw blockState material true w in
  w.

Definition renderPiglinHead (blockState : BlockState) (texture : TextureId)
    (materialPicker : MaterialPicker) (material : bool -> MeshBasicMaterial)
    (w : World) : World :=
  let modelHead1 := boxModel5 texture materialPicker (-5, -8, -4) (10, 8, 8) (0, 0) in
  let modelHead2 := boxModel5 texture materialPicker (-2, -4, -5) (4, 4, 1) (31, 1) in
  let modelHead3 := boxModel5 texture materialPicker (2, -2, -5) (1, 2, 1) (2, 4) in
  let modelHead4 := boxModel5 texture materialPicker (-3, -2, -5) (1, 2, 1) (2, 0) in
  let modelLeftEar := boxModel5 texture materialPicker (0, 0, -2) (1, 5, 4) (51, 6) in
  let modelRightEar := boxModel5 texture materialPicker (-1, 0, -2) (1, 5, 4) (39, 6) in
  let w := renderModelNoCullsWithMS modelHead1 blockState material true w in
  let w := renderModelNoCullsWithMS modelHead2 blockState material true w in
  let w := renderModelNoCullsWithMS modelHead3 blockState material true w in
  let w := renderModelNoCullsWithMS modelHead4 blockState material true w in
  let w := renderModelNoCullsWithMS modelLeftEar blockState material true w in
  let w := renderModelNoCullsWithMS modelRightEar blockState material true w in
  w.

Definition renderSkull : RenderFunc :=
  fun x y z blockState modelManager materialPicker w =>
  let texture := getSpecialBlocksData modelManager (blockName blockState) !! 0%nat in
  let material : bool -> MeshBasicMaterial :=
    if JS.includes (blockName blockState) "player"
    then plainMaterial materialPicker translucent
    else fun animated => doubleSided (plainMaterial materialPicker cutout animated) in
  if JS.includes (blockName blockState) "dragon" then
    renderDragonHead blockState texture materialPicker material w
  else if JS.includes (blockName blockState) "piglin" then
    renderPiglinHead blockState texture materialPicker material w
  else
    renderPlainSkull blockState texture materialPicker material w.

(* ===================================================================== *)
(** ** Signs *)
(* ===================================================================== *)

Definition renderSign : RenderFunc :=
  fun x y z blockState modelManager materialPicker w =>
  let texture := getSpecialBlocksData modelManager (blockName blockState) !! 0%nat in
  let modelSign := boxModel5 texture materialPicker (-12, -14, -1) (24, 12, 2) (0, 0) in
  let modelStick := boxModel5 texture materialPicker (-1, -2, -1) (2, 14, 2) (0, 14) in
  let material := fun animated : bool =>
    doubleSided (plainMaterial materialPicker cutout animated) in
  let w := renderModelNoCullsWithMS modelSign blockState material true w in
  if negb (JS.includes (blockName blockState) "wall")
  then renderModelNoCullsWithMS modelStick blockState material true w
  else w.

Definition renderHangingSign : RenderFunc :=
  fun x y z blockState modelManager materialPicker w =>
  let texture := getSpecialBlocksData modelManager (blockName blockState) !! 0%nat in
  let modelBoard := boxModel5 texture materialPicker (-7, 0, -1) (14, 10, 2) (0, 12) in
  let modelPlank := boxModel5 texture materialPicker (-8, -6, -2) (16, 2, 4) (0, 0) in
  let modelChain1 := boxModel5 texture materialPicker (-1.5, 0, 0) (3, 6, 0) (0, 6) in
  let modelChain2 := boxModel5 texture materialPicker (-1.5, 0, 0) (3, 6, 0) (6, 6) in
  let modelVChains := boxModel5 texture materialPicker (-6, -6, 0) (12, 6, 0) (14, 6) in
  let material := fun animated : bool =>
    doubleSided (plainMaterial materialPicker cutout animated) in
  let w := renderModelNoCullsWithMS modelBoard blockState material true w in
  if JS.includes (blockName blockState) "wall" then
    let w := renderModelNoCullsWithMS modelPlank blockState material true w in
    let w := renderModelNoCullsWithMS modelChain1 blockState material true w in
    let w := renderModelNoCullsWithMS modelChain2 blockState material true w in
    let w := renderModelNoCullsWithMS modelChain1 blockState material true w in
    let w := renderModelNoCullsWithMS modelChain2 blockState material true w in
    w
  else if propIs (blockProperties blockState) "attached" "false" then
    let w := renderModelNoCullsWithMS modelChain1 blockState material true w in
    let w := renderModelNoCullsWithMS modelChain2 blockState material true w in
    let w := renderModelNoCullsWithMS modelChain1 blockState material true w in
    let w := renderModelNoCullsWithMS modelChain2 blockState material true w in
    w
  else
    renderModelNoCullsWithMS modelVChains blockState material true w.

(* ===================================================================== *)
(** ** The special-renderer registry *)
(* ===================================================================== *)

(** [() => {}] *)
Definition renderNothing : RenderFunc :=
  fun x y z blockState modelManager materialPicker w => w.

(** [needRenderModel] is an optional field: [None] when the entry omits it. *)
Record RendererEntry : Type := mkEntry {
  block : NameTest;
  renderFunc : RenderFunc;
  needRenderModel : option bool
}.

Definition hardCodedRenderers : list RendererEntry :=
  [ mkEntry (Exact "water") renderNothing None;
    mkEntry (Exact "lava") renderNothing None;
    mkEntry (Exact "chest") renderChest None;
    mkEntry (Exact "ender_chest") renderChest None;
    mkEntry (Exact "trapped_chest") renderChest None;
    mkEntry (Pattern (JS.anyThenSuffix "shulker_box")) renderShulkerBox None;
    mkEntry (Exact "lectern") renderLecternBlock (Some true);
    mkEntry (Exact "enchanting_table") renderEnchantTable (Some true);
    mkEntry (Exact "bell") renderBell (Some true);
    mkEntry (Exact "decorated_pot") renderDecoratedPot None;
    mkEntry (Pattern (JS.anyThenSuffix "_bed")) renderBed None;
    mkEntry (Pattern (JS.anyThenSuffix "_banner")) renderBanner None;
    mkEntry (Exact "piston_head") renderNothing (Some true);
    mkEntry (Pattern (JS.anyThenSuffix "_skull")) renderSkull None;
    mkEntry (Pattern (JS.anyThenSuffix "_head")) renderSkull None;
    mkEntry (Pattern (JS.anyThenSuffix "_hanging_sign")) renderHangingSign None;
    mkEntry (Pattern (JS.anyThenSuffix "_sign")) renderSign None ].

(** Modelled from the spec: the lookup over the registry lives in
    [renderer.ts], which is not part of the sources at hand.  Section 4.5:
    the block name is matched against the ordered list of exact-string or
    pattern keys and the first match wins. *)
Definition renderSpecial (name : string) : option RendererEntry :=
  List.find (fun entry => nameTestApplies name (block entry)) hardCodedRenderers.

(** Modelled from the spec: section 4.5, an entry may request through
    [needRenderModel] that the generic model is rendered as well; without the
    request the special renderer stands in for the generic model. *)
Definition genericModelAlsoRendered (entry : RendererEntry) : bool :=
  match needRenderModel entry with
  | Some true => true
  | _ => false
  end.

(** Modelled from the spec: the converse reading of [needRenderModel]. *)
Definition suppressesGenericModel (entry : RendererEntry) : bool :=
  negb (genericModelAlsoRendered entry).

(* ===================================================================== *)
(** ** Vocabulary of the specification *)
(* ===================================================================== *)

Local Close Scope Q_scope.

(** [name] ends in [suffix]. *)
Definition endsIn (name suffix : string) : Prop :=
  exists front : string, name = String.append front suffix.

(** The half-transparent names: the six exact names and the two name
    endings of [halfTransparentBlocks]. *)
Definition halfTransparentName (name : string) : Prop :=
  name ∈ ["frosted_ice"; "ice"; "honey_block"; "slime_block"; "glass"; "tinted_glass"]
  \/ endsIn name "copper_grate"
  \/ endsIn name "stained_glass".

(** The same set with the leaves ending counted in. *)
Definition halfTransparentOrLeavesName (name : string) : Prop :=
  halfTransparentName name \/ endsIn name "_leaves".

(** The UV rectangle that [model] gives to the face [d] of its first cuboid. *)
Definition faceUV (model : BakedModel) (d : Direction) : option (list Q) :=
  match baked_elements model with
  | el :: _ => face_uv <$> (el_faces el !! d)
  | [] => None
  end.

(** Exchanging the two U coordinates of a rectangle [[u0, v0, u1, v1]]. *)
Definition flipU (uv : list Q) : list Q :=
  match uv with
  | [u0; v0; u1; v1] => [u1; v0; u0; v1]
  | _ => uv
  end.

(** A render function that leaves scene and console as they were. *)
Definition emitsNothing (f : RenderFunc) : Prop :=
  forall x y z blockState modelManager materialPicker w,
    f x y z blockState modelManager materialPicker w = w.

Definition dyeColorNames : list string :=
  [ "white"; "orange"; "magenta"; "light_blue"; "yellow"; "lime"; "pink";
    "gray"; "light_gray"; "cyan"; "purple"; "blue"; "brown"; "green"; "red";
    "black" ].

(** The two block names of a banner of colour [color]. *)
Definition bannerNames (color : string) : list string :=
  [ String.append color "_banner"; String.append color "_wall_banner" ].

(* ===================================================================== *)
(** ** Sample inputs *)
(* ===================================================================== *)

Definition glassBlock : BlockState := mkBlockState "glass" ∅.
Definition tintedGlassBlock : BlockState := mkBlockState "tinted_glass" ∅.
Definition oakLeavesBlock : BlockState := mkBlockState "oak_leaves" ∅.

Definition barsNorth (flag : string) : BlockState :=
  mkBlockState "iron_bars" {[ "north" := flag ]}.
Definition barsSouth (flag : string) : BlockState :=
  mkBlockState "iron_bars" {[ "south" := flag ]}.

Definition exampleMaterialPicker : MaterialPicker :=
  mkMaterialPicker (fun pass => mkMaterial false pass None FrontSide)
                   (fun pass => mkMaterial true pass None FrontSide).

Definition pistonHeadEntry : RendererEntry :=
  mkEntry (Exact "piston_head") renderNothing (Some true).

Definition exampleModelManager : BlockStateModelManager :=
  mkModelManager (fun _ => [7%N; 8%N; 9%N]).

Definition chestOfType (type : string) : BlockState :=
  mkBlockState "chest" {[ "type" := type ]}.

Definition lecternWith (hasBook : option string) : BlockState :=
  mkBlockState "lectern"
    match hasBook with
    | Some v => {[ "has_book" := v ]}
    | None => ∅
    end.

(* ===================================================================== *)
(** ** Further vocabulary *)
(* ===================================================================== *)

(** A fragment as every special renderer emits it: tagged with the block it
    was emitted for and holding a one-cuboid model. *)
Definition wellFormedFragment (blockState : BlockState) (f : Fragment) : Prop :=
  frag_block f = blockState /\ length (baked_elements (frag_model f)) = 1%nat.

(** [w'] is [w] with fragments appended to the scene and warnings appended
    to the console. *)
Definition appendsWellFormed (blockState : BlockState) (w w' : World) : Prop :=
  exists (fragments : list Fragment) (warnings : list Warning),
    scene w' = scene w ++ fragments
    /\ console w' = console w ++ warnings
    /\ Forall (wellFormedFragment blockState) fragments
    /\ (length fragments <= 8)%nat
    /\ (length warnings <= 1)%nat
    /\ (fragments = [] \/ warnings = []).

(** The face that [model] gives to direction [d] of its first cuboid. *)
Definition boxFace (model : BakedModel) (d : Direction) : option ModelFace :=
  match baked_elements model with
  | el :: _ => el_faces el !! d
  | [] => None
  end.

(** Every face of the fragment's model is painted with [texture]. *)
Definition usesTexture (texture : TextureId) (f : Fragment) : Prop :=
  forall d face, boxFace (frag_model f) d = Some face -> face_texture face = texture.

(** The texture slot each chest variant reads. *)
Definition chestVariants : list (string * nat) :=
  [ ("single", 0%nat); ("left", 1%nat); ("right", 2%nat) ].

(** The dye colours whose name has no underscore. *)
Definition oneWordDyeColors : list string :=
  [ "white"; "orange"; "magenta"; "yellow"; "lime"; "pink"; "gray";
    "cyan"; "purple"; "blue"; "brown"; "green"; "red"; "black" ].

(** The property names every object literal inherits from
    [Object.prototype]. *)
Definition objectPrototypeKeys : list string :=
  [ "constructor"; "__defineGetter__"; "__defineSetter__"; "hasOwnProperty";
    "__lookupGetter__"; "__lookupSetter__"; "isPrototypeOf";
    "propertyIsEnumerable"; "toString"; "valueOf"; "__proto__";
    "toLocaleString" ].

(** Those of them without an underscore. *)
Definition oneWordPrototypeKeys : list string :=
  [ "constructor"; "hasOwnProperty"; "isPrototypeOf"; "propertyIsEnumerable";
    "toString"; "valueOf"; "toLocaleString" ].

(** What a bracket read on the object literal [dyeColorMapping] yields: the
    number of an own key, a member inherited from the prototype, or
    [undefined]. *)
Inductive PropertyRead : Type :=
| OwnNumber (hex : N)
| Inherited
| NotFound.

(** [dyeColorMapping[key]] with the prototype chain of a plain object. *)
Definition readDyeColorMapping (key : string) : PropertyRead :=
  match dyeColorMapping !! key with
  | Some hex => OwnNumber hex
  | None =>
      if bool_decide (key ∈ objectPrototypeKeys) then Inherited else NotFound
  end.

(** The read of [renderBanner] for a block name. *)
Definition bannerDyeRead (blockName : string) : PropertyRead :=
  readDyeColorMapping
    (JS.substring blockName 0 (JS.indexOf blockName "_"%char)).

(** The exact names and the name endings that key the registry. *)
Definition exactKeys : list string :=
  [ "water"; "lava"; "chest"; "ender_chest"; "trapped_chest"; "lectern";
    "enchanting_table"; "bell"; "decorated_pot"; "piston_head" ].

Definition suffixKeys : list string :=
  [ "shulker_box"; "_bed"; "_banner"; "_skull"; "_head"; "_hanging_sign"; "_sign" ].

(* ===================================================================== *)
(** ** Special textures *)
(* ===================================================================== *)

(** Modelled from the spec: an entry of the picker's [atlasMapping]
    (section 3), either a static rectangle [[x, y, w, h]] or an animated
    descriptor with its frame list. *)
Inductive Sprite : Type :=
| StaticSprite (rect : list Q)
| AnimatedSprite (frames : list N).

Section SpecialTextures.

(** The atlas constants of [texture.ts] and the picker's atlas table and
    animated-texture manager, which the record [MaterialPicker] does not
    carry, are parameters.  The manager is a state threaded through
    [putNewTexture]; a [TypeError] of the source is the result [None]. *)
Variables (ATLAS_WIDTH ATLAS_HEIGHT ANIMATED_TEXTURE_ATLAS_SIZE : Q).
Variable AnimatedTextureManager : Type.
Variable putNewTexture :
  N -> Sprite -> list (option Q) -> AnimatedTextureManager ->
  list Q * AnimatedTextureManager.
Variable atlasMapping : gmap N Sprite.

(** The second [map] of [resolvedMaterial]: [Array.isArray(sprite)] picks the
    static material, everything else (an unmapped slot included) the
    animated one. *)
Definition resolveMaterial (materialPicker : MaterialPicker)
    (renderType : RenderType) (sprite : option Sprite) : MeshBasicMaterial :=
  match sprite with
  | Some (StaticSprite _) => staticTexture materialPicker renderType
  | _ => animatedTexture materialPicker renderType
  end.

(** The callback of [resolvedSprites] for one texture slot. *)
Definition resolveSprite (texture : N) (manager : AnimatedTextureManager)
  : option (list (option Q)) * AnimatedTextureManager :=
  match atlasMapping !! texture with
  | Some (StaticSprite sprite) =>
      (Some [sprite !! 0%nat; sprite !! 1%nat; sprite !! 2%nat; sprite !! 3%nat;
             Some ATLAS_WIDTH; Some ATLAS_HEIGHT], manager)
  | Some (AnimatedSprite frames) =>
      match frames !! 0%nat ≫= (fun frame => atlasMapping !! frame) with
      | Some firstFrame =>
          let frameSize :=
            match firstFrame with
            | StaticSprite rect => [rect !! 2%nat; rect !! 3%nat]
            | AnimatedSprite _ => [None; None]
            end in
          let '(placed, manager') :=
            putNewTexture texture (AnimatedSprite frames) frameSize manager in
          (Some [placed !! 0%nat; placed !! 1%nat; placed !! 2%nat; placed !! 3%nat;
                 Some ANIMATED_TEXTURE_ATLAS_SIZE; Some ANIMATED_TEXTURE_ATLAS_SIZE],
           manager')
      | None => (None, manager)
      end
  | None => (None, manager)
  end.

(** [specialTextureIDs.map(...)] with the manager threaded from left to
    right; the first failing slot ends the walk. *)
Fixpoint resolveSprites (ids : list N) (manager : AnimatedTextureManager)
  : option (list (list (option Q))) * AnimatedTextureManager :=
  match ids with
  | [] => (Some [], manager)
  | texture :: rest =>
      match resolveSprite texture manager with
      | (Some rect, manager') =>
          match resolveSprites rest manager' with
          | (Some rects, manager'') => (Some (rect :: rects), manager'')
          | (None, manager'') => (None, manager'')
          end
      | (None, manager') => (None, manager')
      end
  end.

Definition resolveSpecialTextures (blockName : string)
    (materialPicker : MaterialPicker) (modelManager : BlockStateModelManager)
    (renderType : RenderType) (manager : AnimatedTextureManager)
  : option (list MeshBasicMaterial * list (list (option Q)))
    * AnimatedTextureManager :=
  let specialTextureIDs := getSpecialBlocksData modelManager blockName in
  let resolvedMaterial :=
    map (resolveMaterial materialPicker renderType)
        (map (fun texture => atlasMapping !! texture) specialTextureIDs) in
  match resolveSprites specialTextureIDs manager with
  | (Some resolvedSprites, manager') =>
      (Some (resolvedMaterial, resolvedSprites), manager')
  | (None, manager') => (None, manager')
  end.

(** A slot the source can resolve: a static rectangle, or an animated
    sprite whose first frame is in the atlas table. *)
Definition resolvable (texture : N) : Prop :=
  match atlasMapping !! texture with
  | Some (StaticSprite _) => True
  | Some (AnimatedSprite frames) =>
      is_Some (frames !! 0%nat ≫= (fun frame => atlasMapping !! frame))
  | None => False
  end.

Definition staticSlot (texture : N) : Prop :=
  exists rect, atlasMapping !! texture = Some (StaticSprite rect).

End SpecialTextures.

(** Sample inputs for the texture resolver: three static slots, and a
    manager that counts its placements. *)
Definition exampleAtlas : gmap N Sprite :=
  {[ 7%N := StaticSprite [0; 0; 16; 16]%Q;
     8%N := StaticSprite [16; 0; 16; 16]%Q;
     9%N := StaticSprite [32; 0; 16; 16]%Q ]}.

Definition examplePutNewTexture (texture : N) (sprite : Sprite)
    (frameSize : list (option Q)) (placements : nat) : list Q * nat :=
  ([0; 0; 16; 16]%Q, S placements).

Definition bedOfPart (part : string) : BlockState :=
  mkBlockState "red_bed" {[ "part" := part ]}.

(* ===================================================================== *)
(** ** Strings and patterns *)
(* ===================================================================== *)

Section StringFacts.

Local Arguments String.append !s1 s2 : simpl nomatch.

Lemma append_assoc (a b c : string) :
  String.append (String.append a b) c = String.append a (String.append b c).
Proof. induction a as [|x a IH]; simpl; [reflexivity | now rewrite IH]. Qed.

Lemma endsWith_endsIn (s t : string) : JS.endsWith s t = true <-> endsIn s t.
Proof.
  induction s as [|c s IH]; cbn [JS.endsWith].
  - rewrite orb_false_r, String.eqb_eq. split.
    + intros <-. now exists EmptyString.
    + intros [[|x front] H]; simpl in H; [easy | discriminate].
  - rewrite orb_true_iff, String.eqb_eq, IH. split.
    + intros [<- | [front ->]]; [now exists EmptyString | now exists (String c front)].
    + intros [[|x front] H]; simpl in H.
      * now left.
      * injection H as _ ->. right. now exists front.
Qed.

(** Two endings of one string are comparable. *)
Lemma endings_comparable (s t1 t2 : string) :
  endsIn s t1 -> endsIn s t2 -> endsIn t1 t2 \/ endsIn t2 t1.
Proof.
  intros [p Hp] [q Hq]. subst s. revert q Hq.
  induction p as [|c p IH]; intros q Hq; simpl in Hq.
  - left. now exists q.
  - destruct q as [|c' q]; simpl in Hq.
    + right. exists (String c p). now rewrite <- Hq.
    + injection Hq as _ Hq. now apply IH with q.
Qed.

Lemma matchesAt_literal_end (lit s : string) :
  JS.matchesAt (JS.literal lit ++ [JS.EndAnchor]) s = String.eqb lit s.
Proof.
  revert s. induction lit as [|c lit IH]; intros [|c' s]; simpl; try reflexivity.
  rewrite IH. now destruct (Ascii.eqb c c').
Qed.

Lemma matchesAt_star_here (r : JS.RegExp) (s : string) :
  JS.matchesAt r s = true -> JS.matchesAt (JS.AnyStar :: r) s = true.
Proof.
  intros H. destruct s; simpl; rewrite H; [reflexivity | apply orb_true_r].
Qed.

Lemma matchesAt_star_inv (r : JS.RegExp) (s : string) :
  JS.matchesAt (JS.AnyStar :: r) s = true ->
  exists front rest, s = String.append front rest /\ JS.matchesAt r rest = true.
Proof.
  induction s as [|c s IH]; intros H.
  - exists EmptyString, EmptyString. split; [reflexivity | exact H].
  - simpl in H. apply orb_true_iff in H as [H | H].
    + apply andb_true_iff in H as [_ H].
      destruct (IH H) as (front & rest & -> & Hm).
      now exists (String c front), rest.
    + now exists EmptyString, (String c s).
Qed.

Lemma test_spec (r : JS.RegExp) (s : string) :
  JS.test r s = true <->
  exists front rest, s = String.append front rest /\ JS.matchesAt r rest = true.
Proof.
  induction s as [|c s IH]; simpl.
  - rewrite orb_false_r. split.
    + intros H. now exists EmptyString, EmptyString.
    + intros ([|x front] & rest & Hs & Hm); simpl in Hs; [now subst rest | discriminate].
  - rewrite orb_true_iff, IH. split.
    + intros [H | (front & rest & -> & Hm)].
      * now exists EmptyString, (String c s).
      * now exists (String c front), rest.
    + intros ([|x front] & rest & Hs & Hm); simpl in Hs.
      * left. now subst rest.
      * injection Hs as _ ->. right. now exists front, rest.
Qed.

(** [/.*lit$/.test(s)] is [s.endsWith(lit)]. *)
Lemma test_anyThenSuffix (lit s : string) :
  JS.test (JS.anyThenSuffix lit) s = JS.endsWith s lit.
Proof.
  apply eq_true_iff_eq. rewrite test_spec, endsWith_endsIn.
  unfold JS.anyThenSuffix, endsIn. split.
  - intros (front & rest & -> & Hm).
    apply matchesAt_star_inv in Hm as (front' & rest' & -> & Hm).
    rewrite matchesAt_literal_end in Hm. apply String.eqb_eq in Hm as <-.
    exists (String.append front front'). now rewrite append_assoc.
  - intros [front ->]. exists front, lit. split; [reflexivity |].
    apply matchesAt_star_here. rewrite matchesAt_literal_end.
    apply String.eqb_refl.
Qed.

End StringFacts.

(* ===================================================================== *)
(** ** Face culling: half-transparent blocks and iron bars *)
(* ===================================================================== *)

Section SkipRendering.

Lemma checkNameInSet_halfTransparent (name : string) :
  checkNameInSet name halfTransparentBlocks = true <-> halfTransparentName name.
Proof.
  unfold checkNameInSet, halfTransparentBlocks, halfTransparentName.
  cbn [existsb nameTestApplies].
  rewrite !test_anyThenSuffix, !orb_true_iff, !String.eqb_eq, !endsWith_endsIn.
  rewrite !elem_of_cons, elem_of_nil.
  intuition (try congruence; auto 10).
Qed.

Lemma leaves_not_halfTransparent (name : string) :
  endsIn name "_leaves" -> checkNameInSet name halfTransparentBlocks = false.
Proof.
  intros Hleaves. apply not_true_iff_false.
  rewrite checkNameInSet_halfTransparent. unfold halfTransparentName.
  rewrite !elem_of_cons, elem_of_nil.
  intros [Hexact | [Hgrate | Hglass]].
  - apply endsWith_endsIn in Hleaves.
    repeat (destruct Hexact as [-> | Hexact]; [discriminate Hleaves |]).
    exact Hexact.
  - destruct (endings_comparable _ _ _ Hleaves Hgrate) as [H | H];
      apply endsWith_endsIn in H; discriminate H.
  - destruct (endings_comparable _ _ _ Hleaves Hglass) as [H | H];
      apply endsWith_endsIn in H; discriminate H.
Qed.

Lemma leaves_not_named (name other : string) :
  endsIn name "_leaves" -> JS.endsWith other "_leaves" = false ->
  String.eqb name other = false.
Proof.
  intros Hleaves Hother. apply String.eqb_neq. intros ->.
  apply endsWith_endsIn in Hleaves. congruence.
Qed.

Lemma not_both_named (n1 n2 name : string) :
  n1 <> n2 -> String.eqb n1 name && String.eqb n2 name = false.
Proof.
  intros Hne.
  destruct (String.eqb_spec n1 name), (String.eqb_spec n2 name);
    try reflexivity; congruence.
Qed.

(** C1 (as amended).  For every direction and every two blocks of one name,
    [hardCodedSkipRendering] answers [true] when that name is one of
    frosted_ice, ice, honey_block, slime_block, glass, tinted_glass or ends in
    copper_grate or stained_glass; a block whose name ends in _leaves is never
    culled by it; and two blocks of different names are never culled. *)
Theorem skip_half_transparent_same_name (d : Direction) (a b : BlockState) :
  (blockName a = blockName b -> halfTransparentName (blockName a) ->
     hardCodedSkipRendering a b d = true)
  /\ (endsIn (blockName a) "_leaves" -> hardCodedSkipRendering a b d = false)
  /\ (blockName a <> blockName b -> hardCodedSkipRendering a b d = false).
Proof.
  unfold hardCodedSkipRendering. repeat split.
  - intros Hsame Hname. apply checkNameInSet_halfTransparent in Hname.
    rewrite Hname, <- Hsame, String.eqb_refl.
    repeat match goal with
           | |- (if ?c then _ else _) = true => destruct c; [reflexivity |]
           end.
    reflexivity.
  - intros Hleaves.
    rewrite (leaves_not_named _ "powder_snow" Hleaves eq_refl).
    rewrite (leaves_not_named _ "iron_bars" Hleaves eq_refl).
    rewrite (leaves_not_named _ "mangrove_roots" Hleaves eq_refl).
    now rewrite (leaves_not_halfTransparent _ Hleaves).
  - intros Hne.
    rewrite !(not_both_named _ _ _ Hne).
    apply String.eqb_neq in Hne. rewrite Hne. cbn [andb].
    apply andb_false_r.
Qed.

Lemma glass_is_halfTransparent : halfTransparentName "glass".
Proof. left. rewrite !elem_of_cons. auto 10. Defined.

Lemma oak_leaves_endsIn_leaves : endsIn "oak_leaves" "_leaves".
Proof. now exists "oak". Defined.

Lemma skip_half_transparent_same_name_witness :
  hardCodedSkipRendering glassBlock glassBlock NORTH = true
  /\ hardCodedSkipRendering oakLeavesBlock oakLeavesBlock UP = false
  /\ hardCodedSkipRendering glassBlock tintedGlassBlock EAST = false.
Proof.
  split; [| split].
  - apply (proj1 (skip_half_transparent_same_name NORTH glassBlock glassBlock));
      [reflexivity | exact glass_is_halfTransparent].
  - apply (proj1 (proj2
      (skip_half_transparent_same_name UP oakLeavesBlock oakLeavesBlock))).
    exact oak_leaves_endsIn_leaves.
  - apply (proj2 (proj2
      (skip_half_transparent_same_name EAST glassBlock tintedGlassBlock))).
    simpl. discriminate.
Defined.

(** The leaves pattern does match oak_leaves; it is the culling function
    that never consults it. *)
Example leavesBlocks_oak_leaves :
  JS.test leavesBlocks "oak_leaves" = true
  /\ checkNameInSet "oak_leaves" halfTransparentBlocks = false.
Proof. split; reflexivity. Qed.

(** C1 as stated fails: with the leaves ending counted among the
    half-transparent names, two oak_leaves blocks would have to be culled,
    and they are not. *)
Lemma skip_leaves_counterexample :
  ~ (forall (d : Direction) (a b : BlockState),
       blockName a = blockName b ->
       halfTransparentOrLeavesName (blockName a) ->
       hardCodedSkipRendering a b d = true).
Proof.
  intros Hclaim.
  specialize (Hclaim NORTH oakLeavesBlock oakLeavesBlock eq_refl
                (or_intror oak_leaves_endsIn_leaves)).
  vm_compute in Hclaim. discriminate Hclaim.
Qed.

(** C2.  Two iron_bars blocks are culled exactly when the direction is
    horizontal, this block's property named after the direction is "true"
    and the other block's property named after the opposite direction is
    "true". *)
Theorem skip_iron_bars_iff (d : Direction) (thisBlock otherBlock : BlockState) :
  blockName thisBlock = "iron_bars" ->
  blockName otherBlock = "iron_bars" ->
  hardCodedSkipRendering thisBlock otherBlock d = true
  <-> (isHorizontalDirection d = true
       /\ blockProperties thisBlock !! directionName d = Some "true"
       /\ blockProperties otherBlock !! directionName (oppositeDirection d)
          = Some "true").
Proof.
  intros Hthis Hother. unfold hardCodedSkipRendering.
  rewrite Hthis, Hother.
  change (String.eqb "iron_bars" "powder_snow") with false.
  change (String.eqb "iron_bars" "iron_bars") with true.
  change (String.eqb "iron_bars" "mangrove_roots") with false.
  change (checkNameInSet "iron_bars" halfTransparentBlocks) with false.
  cbn [andb]. unfold propIs.
  destruct (isHorizontalDirection d); cbn [andb].
  - repeat case_bool_decide; cbn [andb]; intuition congruence.
  - intuition congruence.
Qed.

Lemma skip_iron_bars_iff_witness :
  hardCodedSkipRendering (barsNorth "true") (barsSouth "true") NORTH = true
  <-> (isHorizontalDirection NORTH = true
       /\ blockProperties (barsNorth "true") !! directionName NORTH = Some "true"
       /\ blockProperties (barsSouth "true") !! directionName (oppositeDirection NORTH)
          = Some "true").
Proof.
  apply (skip_iron_bars_iff NORTH (barsNorth "true") (barsSouth "true"));
    reflexivity.
Defined.

Example skip_iron_bars_examples :
  hardCodedSkipRendering (barsNorth "true") (barsSouth "true") NORTH = true
  /\ hardCodedSkipRendering (barsNorth "false") (barsSouth "true") NORTH = false
  /\ hardCodedSkipRendering (barsNorth "true") (barsSouth "false") NORTH = false
  /\ hardCodedSkipRendering (barsNorth "true") (barsSouth "true") UP = false.
Proof. vm_compute. auto. Qed.

End SkipRendering.

(* ===================================================================== *)
(** ** Shading *)
(* ===================================================================== *)

(** C3.  Without shading every direction gets 1; with shading DOWN gets
    0.5, UP 1, NORTH and SOUTH 0.8, EAST and WEST 0.6; every multiplier lies
    in (0, 1]. *)
Theorem getShade_values :
  (forall d, getShade d false = 1%Q)
  /\ getShade DOWN true = 0.5%Q
  /\ getShade UP true = 1%Q
  /\ getShade NORTH true = 0.8%Q
  /\ getShade SOUTH true = 0.8%Q
  /\ getShade EAST true = 0.6%Q
  /\ getShade WEST true = 0.6%Q
  /\ (forall d shade, (0 < getShade d shade)%Q /\ (getShade d shade <= 1)%Q).
Proof.
  repeat split; try reflexivity; try (now intros []).
  - destruct d, shade; reflexivity.
  - destruct d, shade; discriminate.
Qed.

(* ===================================================================== *)
(** ** The cuboid builder: faces and UV rectangles *)
(* ===================================================================== *)

Section BoxModel.

Lemma includesDirection_true (visibleFaces : list Direction) (d : Direction) :
  includesDirection visibleFaces d = true <-> d ∈ visibleFaces.
Proof. unfold includesDirection. apply bool_decide_eq_true. Qed.

Lemma lookup_putFace_eq visibleFaces d face (m : gmap Direction ModelFace) :
  d ∈ visibleFaces -> putFace visibleFaces d face m !! d = Some face.
Proof.
  intros Hin. unfold putFace.
  apply includesDirection_true in Hin. rewrite Hin. apply lookup_insert_eq.
Qed.

Lemma lookup_putFace_ne visibleFaces d d' face (m : gmap Direction ModelFace) :
  d <> d' -> putFace visibleFaces d' face m !! d = m !! d.
Proof.
  intros Hne. unfold putFace.
  destruct (includesDirection visibleFaces d'); [| reflexivity].
  now apply lookup_insert_ne.
Qed.

Lemma is_Some_putFace visibleFaces d d' face (m : gmap Direction ModelFace) :
  is_Some (putFace visibleFaces d' face m !! d)
  <-> (d = d' /\ d ∈ visibleFaces) \/ is_Some (m !! d).
Proof.
  destruct (decide (d = d')) as [-> | Hne].
  - unfold putFace. destruct (includesDirection visibleFaces d') eqn:Hinc.
    + rewrite lookup_insert_eq. apply includesDirection_true in Hinc.
      split; [intros _; now left | intros _; now eexists].
    + split; [now right |]. intros [[_ Hin] | H]; [| exact H].
      apply includesDirection_true in Hin. congruence.
  - rewrite lookup_putFace_ne by exact Hne. split; [now right |].
    now intros [[Heq _] | H].
Qed.

(** C4 (evaluation of the code).  The dragon head builds its two scales
    with [boxModel] on whole numbers: size (2, 4, 6) and texture offset
    (0, 0) for both, mirror = true for the one at (-5, -12, -4) and the
    default mirror = false for the one at (3, -12, -4).  The mirrored DOWN,
    UP, NORTH and SOUTH rectangles are the unmirrored ones with the two U
    coordinates exchanged; the mirrored WEST and EAST rectangles are the
    unmirrored ones unchanged, neither flipped nor distinct. *)
Theorem boxModel_mirror_side_faces_unflipped
    (texture : TextureId) (materialPicker : MaterialPicker) :
  let plain :=
    boxModel5 texture materialPicker (3, -12, -4)%Q (2, 4, 6)%Q (0, 0)%Q in
  let mirrored :=
    boxModel texture materialPicker (-5, -12, -4)%Q (2, 4, 6)%Q (0, 0)%Q
      (0, 0, 0)%Q IDENTITY_ROTATION [NORTH; SOUTH; WEST; EAST; UP; DOWN]
      true true in
  (faceUV plain WEST = Some [6; 10; 0; 6]%Q
   /\ faceUV mirrored WEST = Some [6; 10; 0; 6]%Q)
  /\ (faceUV plain EAST = Some [14; 10; 8; 6]%Q
      /\ faceUV mirrored EAST = Some [14; 10; 8; 6]%Q)
  /\ (faceUV plain NORTH = Some [8; 10; 6; 6]%Q
      /\ faceUV mirrored NORTH = Some (flipU [8; 10; 6; 6]%Q))
  /\ (faceUV plain SOUTH = Some [16; 10; 14; 6]%Q
      /\ faceUV mirrored SOUTH = Some (flipU [16; 10; 14; 6]%Q))
  /\ (faceUV plain DOWN = Some [6; 0; 8; 6]%Q
      /\ faceUV mirrored DOWN = Some (flipU [6; 0; 8; 6]%Q))
  /\ (faceUV plain UP = Some [10; 0; 8; 6]%Q
      /\ faceUV mirrored UP = Some (flipU [10; 0; 8; 6]%Q)).
Proof.
  cbv zeta. repeat split; vm_compute; reflexivity.
Qed.

(** C5.  The model [boxModel] builds, and the baked model it returns,
    consist of exactly one cuboid element, and that element has a face for a
    direction only if (indeed exactly if) the direction is among the
    requested visible faces. *)
Theorem boxModel_faces_within_visible
    (texture : TextureId) (materialPicker : MaterialPicker)
    (from size : Q * Q * Q) (texOff : Q * Q) (poseOff : Q * Q * Q)
    (rotation : Rotation) (visibleFaces : list Direction)
    (mirror shade : bool) :
  exists el : ModelElement,
    elements (boxModelDescription texture from size texOff poseOff
                visibleFaces mirror shade) = [el]
    /\ baked_elements (boxModel texture materialPicker from size texOff poseOff
                         rotation visibleFaces mirror shade) = [el]
    /\ forall d : Direction, is_Some (el_faces el !! d) <-> d ∈ visibleFaces.
Proof.
  destruct from as [[fromX fromY] fromZ], size as [[width height] depth],
    texOff as [texOffX texOffY], poseOff as [[poseOffX poseOffY] poseOffZ].
  unfold boxModel, bakeModel, boxModelDescription, directionFacesOf.
  cbn [baked_elements elements].
  eexists. split; [reflexivity | split; [reflexivity |]].
  intros d. cbn [el_faces].
  destruct mirror; rewrite !is_Some_putFace, lookup_empty;
    (split;
     [ intros H; repeat (destruct H as [[-> H] | H]; [exact H |]);
       now destruct H
     | intros H; destruct d; auto 10 ]).
Qed.

End BoxModel.

(* ===================================================================== *)
(** ** The registry: piston_head *)
(* ===================================================================== *)

Section Registry.

Lemma renderSpecial_piston_head :
  renderSpecial "piston_head" = Some pistonHeadEntry.
Proof. reflexivity. Qed.

(** C6 (as amended).  In list order the name piston_head selects the entry
    keyed by the exact name piston_head, two places ahead of the [_head$]
    skull entry that would match as well; the selected entry's render
    function leaves the scene as it is, and the entry asks for the generic
    model of the block to be rendered. *)
Theorem piston_head_entry :
  exists entry skull : RendererEntry,
    renderSpecial "piston_head" = Some entry
    /\ hardCodedRenderers !! 12%nat = Some entry
    /\ block entry = Exact "piston_head"
    /\ emitsNothing (renderFunc entry)
    /\ needRenderModel entry = Some true
    /\ genericModelAlsoRendered entry = true
    /\ hardCodedRenderers !! 14%nat = Some skull
    /\ block skull = Pattern (JS.anyThenSuffix "_head")
    /\ renderFunc skull = renderSkull
    /\ nameTestApplies "piston_head" (block skull) = true.
Proof.
  exists pistonHeadEntry,
    (mkEntry (Pattern (JS.anyThenSuffix "_head")) renderSkull None).
  repeat split.
Qed.

(** C6 as stated fails: the entry selected for piston_head does not
    suppress the generic model, it requests it. *)
Lemma piston_head_counterexample :
  ~ (exists entry : RendererEntry,
       renderSpecial "piston_head" = Some entry
       /\ emitsNothing (renderFunc entry)
       /\ suppressesGenericModel entry = true).
Proof.
  intros (entry & Hsel & _ & Hsuppress).
  rewrite renderSpecial_piston_head in Hsel. injection Hsel as <-.
  discriminate Hsuppress.
Qed.

End Registry.

(* ===================================================================== *)
(** ** Chest and lectern: what reaches the scene *)
(* ===================================================================== *)

Section Emission.

Variables (x y z : Z) (blockState : BlockState)
          (modelManager : BlockStateModelManager)
          (materialPicker : MaterialPicker) (w : World).

Lemma scene_render model block material flag (w0 : World) :
  scene (renderModelNoCullsWithMS model block material flag w0)
  = scene w0 ++ [mkFragment model block material flag].
Proof. reflexivity. Qed.

Lemma console_render model block material flag (w0 : World) :
  console (renderModelNoCullsWithMS model block material flag w0) = console w0.
Proof. reflexivity. Qed.

(** C7.  A chest whose type is "single" adds exactly three fragments of one
    cuboid each (bottom, lid, lock) and logs nothing; a chest whose type is
    none of single, left, right (such as "middle", or no type at all) adds
    nothing to the scene and logs exactly one warning.  The renderer is a
    total function: there is no failing path. *)
Theorem renderChest_single_and_unknown :
  (blockProperties blockState !! "type" = Some "single" ->
   exists bottom lid lock : Fragment,
     scene (renderChest x y z blockState modelManager materialPicker w)
       = scene w ++ [bottom; lid; lock]
     /\ cuboidCount [bottom; lid; lock] = 3%nat
     /\ console (renderChest x y z blockState modelManager materialPicker w)
        = console w)
  /\ (forall t : option string,
        blockProperties blockState !! "type" = t ->
        t <> Some "single" -> t <> Some "left" -> t <> Some "right" ->
        scene (renderChest x y z blockState modelManager materialPicker w)
          = scene w
        /\ console (renderChest x y z blockState modelManager materialPicker w)
           = console w ++ [mkWarning "Unknown chest type" t]).
Proof.
  split.
  - intros Htype. unfold renderChest, propIs. rewrite Htype.
    rewrite bool_decide_eq_true_2 by reflexivity.
    do 3 eexists. rewrite !scene_render, !console_render, <- !app_assoc.
    repeat split.
  - intros t Htype Hsingle Hleft Hright. unfold renderChest, propIs.
    rewrite Htype. rewrite !bool_decide_eq_false_2 by assumption.
    split; reflexivity.
Qed.

(** C10.  The lectern renderer changes nothing when has_book is "false";
    for every other value, and when the property is absent, it adds exactly
    the seven book fragments, one cuboid each, and logs nothing. *)
Theorem renderLecternBlock_book :
  (blockProperties blockState !! "has_book" = Some "false" ->
   renderLecternBlock x y z blockState modelManager materialPicker w = w)
  /\ (blockProperties blockState !! "has_book" <> Some "false" ->
      exists book : list Fragment,
        scene (renderLecternBlock x y z blockState modelManager materialPicker w)
          = scene w ++ book
        /\ length book = 7%nat
        /\ cuboidCount book = 7%nat
        /\ console (renderLecternBlock x y z blockState modelManager materialPicker w)
           = console w).
Proof.
  unfold renderLecternBlock, propIs. split.
  - intros Hbook. now rewrite bool_decide_eq_true_2 by exact Hbook.
  - intros Hbook. rewrite bool_decide_eq_false_2 by exact Hbook.
    unfold renderBook. eexists.
    rewrite !scene_render, !console_render, <- !app_assoc.
    repeat split.
Qed.

End Emission.

Lemma renderChest_single_and_unknown_witness :
  (exists bottom lid lock : Fragment,
     scene (renderChest 0%Z 0%Z 0%Z (chestOfType "single") exampleModelManager
              exampleMaterialPicker emptyWorld)
       = scene emptyWorld ++ [bottom; lid; lock]
     /\ cuboidCount [bottom; lid; lock] = 3%nat
     /\ console (renderChest 0%Z 0%Z 0%Z (chestOfType "single") exampleModelManager
                   exampleMaterialPicker emptyWorld)
        = console emptyWorld)
  /\ (scene (renderChest 0%Z 0%Z 0%Z (chestOfType "middle") exampleModelManager
               exampleMaterialPicker emptyWorld)
        = scene emptyWorld
      /\ console (renderChest 0%Z 0%Z 0%Z (chestOfType "middle") exampleModelManager
                    exampleMaterialPicker emptyWorld)
         = console emptyWorld ++ [mkWarning "Unknown chest type" (Some "middle")]).
Proof.
  split.
  - apply (proj1 (renderChest_single_and_unknown 0%Z 0%Z 0%Z (chestOfType "single")
                    exampleModelManager exampleMaterialPicker emptyWorld)).
    reflexivity.
  - apply (proj2 (renderChest_single_and_unknown 0%Z 0%Z 0%Z (chestOfType "middle")
                    exampleModelManager exampleMaterialPicker emptyWorld)
             (Some "middle"));
      [reflexivity | discriminate | discriminate | discriminate].
Defined.

Lemma renderLecternBlock_book_witness :
  renderLecternBlock 0%Z 0%Z 0%Z (lecternWith (Some "false")) exampleModelManager
    exampleMaterialPicker emptyWorld = emptyWorld
  /\ (exists book : list Fragment,
        scene (renderLecternBlock 0%Z 0%Z 0%Z (lecternWith None) exampleModelManager
                 exampleMaterialPicker emptyWorld)
          = scene emptyWorld ++ book
        /\ length book = 7%nat
        /\ cuboidCount book = 7%nat
        /\ console (renderLecternBlock 0%Z 0%Z 0%Z (lecternWith None)
                      exampleModelManager exampleMaterialPicker emptyWorld)
           = console emptyWorld).
Proof.
  split.
  - apply (proj1 (renderLecternBlock_book 0%Z 0%Z 0%Z (lecternWith (Some "false"))
                    exampleModelManager exampleMaterialPicker emptyWorld)).
    reflexivity.
  - apply (proj2 (renderLecternBlock_book 0%Z 0%Z 0%Z (lecternWith None)
                    exampleModelManager exampleMaterialPicker emptyWorld)).
    discriminate.
Defined.

(* ===================================================================== *)
(** ** Banner: dye colour *)
(* ===================================================================== *)

(** C8 (evaluation of the code).  The dye-colour table has an entry for each
    of the sixteen colour names.  For the fourteen colour names without an
    underscore both banner names look up that entry.  For light_blue and
    light_gray the text before the first underscore is "light", which is
    not a key of the table: the lookup yields no colour. *)
Theorem bannerDyeColor_lookup :
  Forall (fun color => is_Some (dyeColorMapping !! color)) dyeColorNames
  /\ Forall
       (fun color =>
          Forall (fun name => bannerDyeColor name = dyeColorMapping !! color)
                 (bannerNames color))
       [ "white"; "orange"; "magenta"; "yellow"; "lime"; "pink"; "gray";
         "cyan"; "purple"; "blue"; "brown"; "green"; "red"; "black" ]
  /\ Forall
       (fun color =>
          Forall (fun name =>
                    JS.substring name 0 (JS.indexOf name "_"%char) = "light"
                    /\ bannerDyeColor name = None)
                 (bannerNames color))
       [ "light_blue"; "light_gray" ].
Proof.
  split; [| split].
  - unfold dyeColorNames. repeat constructor; now eexists.
  - repeat constructor.
  - repeat constructor.
Qed.


(* ===================================================================== *)
(** ** Face culling: the whole decision *)
(* ===================================================================== *)

Section SkipDecision.

Lemma hardCodedSkipRendering_true_iff (a b : BlockState) (d : Direction) :
  hardCodedSkipRendering a b d = true
  <-> blockName a = blockName b
      /\ (blockName a = "powder_snow"
          \/ (blockName a = "iron_bars"
              /\ isHorizontalDirection d = true
              /\ blockProperties a !! directionName d = Some "true"
              /\ blockProperties b !! directionName (oppositeDirection d)
                 = Some "true")
          \/ (blockName a = "mangrove_roots" /\ isVerticalDirection d = true)
          \/ halfTransparentName (blockName a)).
Proof.
  unfold hardCodedSkipRendering, propIs.
  rewrite <- checkNameInSet_halfTransparent.
  destruct a as [n1 p1], b as [n2 p2]; cbn [blockName blockProperties].
  assert (Fsnow : checkNameInSet "powder_snow" halfTransparentBlocks = false)
    by reflexivity.
  assert (Fbars : checkNameInSet "iron_bars" halfTransparentBlocks = false)
    by reflexivity.
  assert (Froots : checkNameInSet "mangrove_roots" halfTransparentBlocks = false)
    by reflexivity.
  destruct (String.eqb_spec n1 n2);
    destruct (String.eqb_spec n1 "powder_snow");
    destruct (String.eqb_spec n2 "powder_snow");
    try (exfalso; congruence);
    destruct (String.eqb_spec n1 "iron_bars");
    destruct (String.eqb_spec n2 "iron_bars");
    try (exfalso; congruence);
    destruct (String.eqb_spec n1 "mangrove_roots");
    destruct (String.eqb_spec n2 "mangrove_roots");
    try (exfalso; congruence);
    destruct (checkNameInSet n1 halfTransparentBlocks) eqn:Hset;
    try (exfalso; congruence);
    destruct (isHorizontalDirection d), (isVerticalDirection d);
    repeat case_bool_decide; cbn [andb]; intuition congruence.
Qed.

Lemma opposite_involutive (d : Direction) : oppositeDirection (oppositeDirection d) = d.
Proof. now destruct d. Qed.

Lemma opposite_horizontal (d : Direction) :
  isHorizontalDirection (oppositeDirection d) = isHorizontalDirection d.
Proof. now destruct d. Qed.

Lemma opposite_vertical (d : Direction) :
  isVerticalDirection (oppositeDirection d) = isVerticalDirection d.
Proof. now destruct d. Qed.

(** X1.  The complete decision of [hardCodedSkipRendering]: a face is culled
    exactly when both blocks have one name and that name is powder_snow, or
    iron_bars with a horizontal direction and both facing connections
    "true", or mangrove_roots with a vertical direction, or a
    half-transparent name. *)
Theorem skip_decision_table (a b : BlockState) (d : Direction) :
  hardCodedSkipRendering a b d = true
  <-> blockName a = blockName b
      /\ (blockName a = "powder_snow"
          \/ (blockName a = "iron_bars"
              /\ isHorizontalDirection d = true
              /\ blockProperties a !! directionName d = Some "true"
              /\ blockProperties b !! directionName (oppositeDirection d)
                 = Some "true")
          \/ (blockName a = "mangrove_roots" /\ isVerticalDirection d = true)
          \/ halfTransparentName (blockName a)).
Proof. apply hardCodedSkipRendering_true_iff. Qed.

(** X2.  The decision is the same seen from the other block: asking about
    [b] against [a] in the opposite direction gives the answer for [a]
    against [b]. *)
Theorem skip_symmetric (a b : BlockState) (d : Direction) :
  hardCodedSkipRendering b a (oppositeDirection d) = hardCodedSkipRendering a b d.
Proof.
  apply eq_true_iff_eq. rewrite !hardCodedSkipRendering_true_iff.
  rewrite opposite_involutive, opposite_horizontal, opposite_vertical.
  destruct a as [n1 p1], b as [n2 p2]; cbn [blockName blockProperties].
  split; intros [-> Hcases]; (split; [reflexivity | tauto]).
Qed.

(** X3.  Block properties are read for iron_bars only, and the direction for
    iron_bars and mangrove_roots only: for every other name the answer
    depends on the two names alone. *)
Theorem skip_reads_names_only (a b a' b' : BlockState) (d d' : Direction) :
  blockName a' = blockName a ->
  blockName b' = blockName b ->
  blockName a <> "iron_bars" ->
  blockName a <> "mangrove_roots" ->
  hardCodedSkipRendering a' b' d' = hardCodedSkipRendering a b d.
Proof.
  intros Ha Hb Hbars Hroots.
  apply eq_true_iff_eq. rewrite !hardCodedSkipRendering_true_iff.
  rewrite Ha, Hb. intuition congruence.
Qed.

Lemma skip_reads_names_only_witness :
  hardCodedSkipRendering (mkBlockState "glass" {[ "north" := "true" ]})
    glassBlock UP
  = hardCodedSkipRendering glassBlock glassBlock NORTH.
Proof.
  apply (skip_reads_names_only glassBlock glassBlock
           (mkBlockState "glass" {[ "north" := "true" ]}) glassBlock NORTH UP);
    [reflexivity | reflexivity | discriminate | discriminate].
Defined.

(** X4.  [checkNameInSet] answers [true] exactly when the set holds the name
    itself or a pattern that matches it, whatever the order of the set; and a
    pattern of the form [/.*lit$/] matches exactly the names that end in
    [lit]. *)
Theorem checkNameInSet_spec (name : string) (nameSet : list NameTest) :
  (checkNameInSet name nameSet = true
   <-> Exact name ∈ nameSet
       \/ exists r, Pattern r ∈ nameSet /\ JS.test r name = true)
  /\ (forall lit, JS.test (JS.anyThenSuffix lit) name = true <-> endsIn name lit).
Proof.
  split.
  - unfold checkNameInSet. rewrite existsb_exists. split.
    + intros ([s | r] & Hin & Happ); apply list_elem_of_In in Hin; cbn in Happ.
      * apply String.eqb_eq in Happ as ->. now left.
      * right. now exists r.
    + intros [Hin | (r & Hin & Happ)].
      * exists (Exact name). split; [now apply list_elem_of_In |].
        apply String.eqb_refl.
      * exists (Pattern r). split; [now apply list_elem_of_In | exact Happ].
  - intros lit. rewrite test_anyThenSuffix. apply endsWith_endsIn.
Qed.

End SkipDecision.

(* ===================================================================== *)
(** ** The registry: dispatch by name *)
(* ===================================================================== *)

Section RegistryDispatch.

Lemma ending_not_named (name suffix other : string) :
  endsIn name suffix -> JS.endsWith other suffix = false ->
  String.eqb other name = false.
Proof.
  intros Hends Hother. apply String.eqb_neq. intros <-.
  apply endsWith_endsIn in Hends. congruence.
Qed.

Lemma endings_exclusive (name s1 s2 : string) :
  endsIn name s1 ->
  JS.endsWith s1 s2 = false -> JS.endsWith s2 s1 = false ->
  JS.endsWith name s2 = false.
Proof.
  intros H1 H12 H21. apply not_true_iff_false. intros H2.
  apply endsWith_endsIn in H2.
  destruct (endings_comparable _ _ _ H1 H2) as [H | H];
    apply endsWith_endsIn in H; congruence.
Qed.

Lemma endsWith_true (name suffix : string) :
  endsIn name suffix -> JS.endsWith name suffix = true.
Proof. apply endsWith_endsIn. Qed.

Lemma endsWith_false (name suffix : string) :
  ~ endsIn name suffix -> JS.endsWith name suffix = false.
Proof. intros H. apply not_true_iff_false. now rewrite endsWith_endsIn. Qed.

Lemma endsIn_longer (name longer shorter : string) :
  endsIn name longer -> JS.endsWith longer shorter = true -> endsIn name shorter.
Proof.
  intros [front ->] Hs. apply endsWith_endsIn in Hs as [mid ->].
  exists (String.append front mid). now rewrite append_assoc.
Qed.

(** Settles every registry test that a name with a known ending fails. *)
Ltac settle_tests name Hends :=
  repeat match goal with
         | |- context [String.eqb ?other name] =>
             rewrite (ending_not_named name _ other Hends eq_refl)
         | |- context [JS.endsWith name ?s2] =>
             rewrite (endings_exclusive name _ s2 Hends eq_refl eq_refl)
         end.

(** Wall banners are banners to the registry. *)
Lemma renderSpecial_wall_banner (name : string) :
  endsIn name "_wall_banner" ->
  renderSpecial name
  = Some (mkEntry (Pattern (JS.anyThenSuffix "_banner")) renderBanner None).
Proof.
  intros Hwall.
  assert (Hends : endsIn name "_banner")
    by now apply (endsIn_longer _ _ _ Hwall).
  unfold renderSpecial, hardCodedRenderers.
  cbn [List.find block nameTestApplies]. rewrite !test_anyThenSuffix.
  settle_tests name Hends. now rewrite (endsWith_true _ _ Hends).
Qed.

(** X5.  Sign blocks: a name ending in _hanging_sign always goes to the
    hanging-sign renderer, although the later [_sign$] pattern matches it
    too; a name ending in _sign that is not a hanging sign goes to the plain
    sign renderer. *)
Theorem renderSpecial_signs (name : string) :
  (endsIn name "_hanging_sign" ->
   renderSpecial name
   = Some (mkEntry (Pattern (JS.anyThenSuffix "_hanging_sign")) renderHangingSign None)
   /\ nameTestApplies name (Pattern (JS.anyThenSuffix "_sign")) = true)
  /\ (endsIn name "_sign" -> ~ endsIn name "_hanging_sign" ->
      renderSpecial name
      = Some (mkEntry (Pattern (JS.anyThenSuffix "_sign")) renderSign None)).
Proof.
  unfold renderSpecial, hardCodedRenderers.
  cbn [List.find block nameTestApplies]. rewrite !test_anyThenSuffix.
  split.
  - intros Hends. settle_tests name Hends.
    rewrite (endsWith_true _ _ Hends).
    split; [reflexivity |].
    apply endsWith_true. now apply (endsIn_longer _ _ _ Hends).
  - intros Hends Hhanging. settle_tests name Hends.
    rewrite (endsWith_false _ _ Hhanging), (endsWith_true _ _ Hends).
    reflexivity.
Qed.

Lemma renderSpecial_signs_witness :
  renderSpecial "oak_hanging_sign"
  = Some (mkEntry (Pattern (JS.anyThenSuffix "_hanging_sign")) renderHangingSign None)
  /\ renderSpecial "oak_wall_sign"
     = Some (mkEntry (Pattern (JS.anyThenSuffix "_sign")) renderSign None).
Proof.
  split.
  - apply (proj1 (renderSpecial_signs "oak_hanging_sign")). now exists "oak".
  - apply (proj2 (renderSpecial_signs "oak_wall_sign")).
    + now exists "oak_wall".
    + intros H. apply endsWith_endsIn in H. discriminate H.
Defined.

(** X6.  Heads and skulls: every name ending in _skull, and every name
    ending in _head other than piston_head, goes to the skull renderer
    without a request for the generic model. *)
Theorem renderSpecial_heads (name : string) :
  (endsIn name "_skull" ->
   renderSpecial name
   = Some (mkEntry (Pattern (JS.anyThenSuffix "_skull")) renderSkull None))
  /\ (endsIn name "_head" -> name <> "piston_head" ->
      renderSpecial name
      = Some (mkEntry (Pattern (JS.anyThenSuffix "_head")) renderSkull None)).
Proof.
  unfold renderSpecial, hardCodedRenderers.
  cbn [List.find block nameTestApplies]. rewrite !test_anyThenSuffix.
  split.
  - intros Hends. settle_tests name Hends.
    now rewrite (endsWith_true _ _ Hends).
  - intros Hends Hpiston. settle_tests name Hends.
    assert (String.eqb "piston_head" name = false) as ->
      by (apply String.eqb_neq; congruence).
    now rewrite (endsWith_true _ _ Hends).
Qed.

Lemma renderSpecial_heads_witness :
  renderSpecial "wither_skeleton_skull"
  = Some (mkEntry (Pattern (JS.anyThenSuffix "_skull")) renderSkull None)
  /\ renderSpecial "dragon_wall_head"
     = Some (mkEntry (Pattern (JS.anyThenSuffix "_head")) renderSkull None).
Proof.
  split.
  - apply (proj1 (renderSpecial_heads "wither_skeleton_skull")).
    now exists "wither_skeleton".
  - apply (proj2 (renderSpecial_heads "dragon_wall_head")).
    + now exists "dragon_wall".
    + discriminate.
Defined.

(** X7.  Banners, beds and shulker boxes: every name ending in _banner
    (wall banners included), _bed or shulker_box goes to the renderer of
    that family. *)
Theorem renderSpecial_families (name : string) :
  (endsIn name "_banner" ->
   renderSpecial name
   = Some (mkEntry (Pattern (JS.anyThenSuffix "_banner")) renderBanner None))
  /\ (endsIn name "_bed" ->
      renderSpecial name
      = Some (mkEntry (Pattern (JS.anyThenSuffix "_bed")) renderBed None))
  /\ (endsIn name "shulker_box" ->
      renderSpecial name
      = Some (mkEntry (Pattern (JS.anyThenSuffix "shulker_box")) renderShulkerBox None)).
Proof.
  unfold renderSpecial, hardCodedRenderers.
  cbn [List.find block nameTestApplies]. rewrite !test_anyThenSuffix.
  repeat split; intros Hends; settle_tests name Hends;
    now rewrite (endsWith_true _ _ Hends).
Qed.

Lemma renderSpecial_families_witness :
  renderSpecial "red_wall_banner"
  = Some (mkEntry (Pattern (JS.anyThenSuffix "_banner")) renderBanner None)
  /\ renderSpecial "red_bed"
     = Some (mkEntry (Pattern (JS.anyThenSuffix "_bed")) renderBed None)
  /\ renderSpecial "shulker_box"
     = Some (mkEntry (Pattern (JS.anyThenSuffix "shulker_box")) renderShulkerBox None).
Proof.
  split; [| split].
  - apply (proj1 (renderSpecial_families "red_wall_banner")). now exists "red_wall".
  - apply (proj1 (proj2 (renderSpecial_families "red_bed"))). now exists "red".
  - apply (proj2 (proj2 (renderSpecial_families "shulker_box"))). now exists "".
Defined.

End RegistryDispatch.

Section RegistryTable.

(** X8.  The generic model is requested next to the special renderer for
    exactly four block names: lectern, enchanting_table, bell and
    piston_head. *)
Theorem needRenderModel_names (name : string) (entry : RendererEntry) :
  renderSpecial name = Some entry ->
  genericModelAlsoRendered entry = true
  <-> name ∈ ["lectern"; "enchanting_table"; "bell"; "piston_head"].
Proof.
  unfold renderSpecial, hardCodedRenderers. cbn [List.find block].
  rewrite !elem_of_cons, elem_of_nil.
  repeat match goal with
         | |- (if nameTestApplies name ?t then _ else _) = _ -> _ =>
             destruct (nameTestApplies name t) eqn:?
         end;
    intros Hsel; try discriminate Hsel; injection Hsel as <-;
    cbn [genericModelAlsoRendered needRenderModel];
    (split; [intros Hgen | intros Hname]);
    try discriminate Hgen; try reflexivity;
    try match goal with
        | H : nameTestApplies name (Exact _) = true |- _ =>
            apply String.eqb_eq in H; subst name; tauto
        end;
    repeat (destruct Hname as [-> | Hname]; [exfalso; discriminate |]);
    destruct Hname.
Qed.

(** X9.  A block name falls through to the generic renderer exactly when it
    is none of the ten exact keys and ends in none of the seven suffixes of
    the registry. *)
Theorem renderSpecial_none_iff (name : string) :
  renderSpecial name = None
  <-> (name ∉ exactKeys)
      /\ Forall (fun suffix => ~ endsIn name suffix) suffixKeys.
Proof.
  unfold renderSpecial, hardCodedRenderers, exactKeys, suffixKeys.
  cbn [List.find block nameTestApplies].
  rewrite !test_anyThenSuffix, !Forall_cons, Forall_nil, !elem_of_cons, elem_of_nil.
  repeat match goal with
         | |- (if ?c then _ else _) = None <-> _ =>
             let H := fresh "Htest" in
             destruct c eqn:H;
             [ split;
               [ discriminate
               | intros [Hexact Hsuffix]; exfalso;
                 first [ apply String.eqb_eq in H; subst name; tauto
                       | apply endsWith_endsIn in H; tauto ] ]
             | ]
         end.
  split; [intros _ | reflexivity].
  split.
  - intros Hin.
    repeat (destruct Hin as [-> | Hin];
            [rewrite String.eqb_refl in *; discriminate |]).
    exact Hin.
  - repeat split; intros Hends; apply endsWith_endsIn in Hends; congruence.
Qed.

End RegistryTable.

(* ===================================================================== *)
(** ** Renderers: what they add to the scene *)
(* ===================================================================== *)

Section Appending.

Variables (x y z : Z) (blockState : BlockState)
          (modelManager : BlockStateModelManager)
          (materialPicker : MaterialPicker) (w : World).

Ltac branches :=
  repeat match goal with
         | |- context [if ?c then _ else _] => destruct c
         end.

Ltac appended :=
  unfold appendsWellFormed;
  eexists _, _;
  split;
  [ rewrite ?scene_render; cbn [scene consoleWarn];
    first [ rewrite <- !app_assoc; reflexivity
          | reflexivity
          | symmetry; apply app_nil_r ]
  | split;
    [ rewrite ?console_render; cbn [console consoleWarn];
      first [ reflexivity | symmetry; apply app_nil_r ]
    | split;
      [ repeat constructor
      | cbn [length app]; repeat split; first [lia | now left | now right] ] ] ].

Lemma renderNothing_appends :
  appendsWellFormed blockState w
    (renderNothing x y z blockState modelManager materialPicker w).
Proof. unfold renderNothing. appended. Qed.

Lemma renderChest_appends :
  appendsWellFormed blockState w
    (renderChest x y z blockState modelManager materialPicker w).
Proof. unfold renderChest. branches; appended. Qed.

Lemma renderShulkerBox_appends :
  appendsWellFormed blockState w
    (renderShulkerBox x y z blockState modelManager materialPicker w).
Proof. unfold renderShulkerBox. appended. Qed.

Lemma renderLecternBlock_appends :
  appendsWellFormed blockState w
    (renderLecternBlock x y z blockState modelManager materialPicker w).
Proof. unfold renderLecternBlock, renderBook. branches; appended. Qed.

Lemma renderEnchantTable_appends :
  appendsWellFormed blockState w
    (renderEnchantTable x y z blockState modelManager materialPicker w).
Proof. unfold renderEnchantTable, renderBook. appended. Qed.

Lemma renderBell_appends :
  appendsWellFormed blockState w
    (renderBell x y z blockState modelManager materialPicker w).
Proof. unfold renderBell. appended. Qed.

Lemma renderDecoratedPot_appends :
  appendsWellFormed blockState w
    (renderDecoratedPot x y z blockState modelManager materialPicker w).
Proof. unfold renderDecoratedPot. appended. Qed.

Lemma renderBed_appends :
  appendsWellFormed blockState w
    (renderBed x y z blockState modelManager materialPicker w).
Proof. unfold renderBed. branches; appended. Qed.

Lemma renderBanner_appends :
  appendsWellFormed blockState w
    (renderBanner x y z blockState modelManager materialPicker w).
Proof. unfold renderBanner. branches; appended. Qed.

Lemma renderSkull_appends :
  appendsWellFormed blockState w
    (renderSkull x y z blockState modelManager materialPicker w).
Proof.
  unfold renderSkull, renderDragonHead, renderPiglinHead, renderPlainSkull.
  branches; appended.
Qed.

Lemma renderSign_appends :
  appendsWellFormed blockState w
    (renderSign x y z blockState modelManager materialPicker w).
Proof. unfold renderSign. branches; appended. Qed.

Lemma renderHangingSign_appends :
  appendsWellFormed blockState w
    (renderHangingSign x y z blockState modelManager materialPicker w).
Proof. unfold renderHangingSign. branches; appended. Qed.

End Appending.

(** X10.  Every render function of the registry only appends: whatever the
    block and the world, the scene and the console keep what they held, at
    most eight fragments and at most one warning are added, never both, and
    each added fragment is tagged with the block it was emitted for and
    holds a one-cuboid model. *)
Theorem registry_renderers_append (entry : RendererEntry) :
  entry ∈ hardCodedRenderers ->
  forall x y z blockState modelManager materialPicker w,
    appendsWellFormed blockState w
      (renderFunc entry x y z blockState modelManager materialPicker w).
Proof.
  unfold hardCodedRenderers. rewrite !elem_of_cons, elem_of_nil.
  intros Hin x y z blockState modelManager materialPicker w.
  repeat (destruct Hin as [-> | Hin]; [cbn [renderFunc] |]);
    try (destruct Hin);
    auto using renderNothing_appends, renderChest_appends,
      renderShulkerBox_appends, renderLecternBlock_appends,
      renderEnchantTable_appends, renderBell_appends,
      renderDecoratedPot_appends, renderBed_appends, renderBanner_appends,
      renderSkull_appends, renderSign_appends, renderHangingSign_appends.
Qed.

Lemma lectern_entry_listed :
  mkEntry (Exact "lectern") renderLecternBlock (Some true) ∈ hardCodedRenderers.
Proof. unfold hardCodedRenderers. rewrite !elem_of_cons. auto 20. Defined.

Lemma registry_renderers_append_witness :
  appendsWellFormed (lecternWith None) emptyWorld
    (renderLecternBlock 0%Z 0%Z 0%Z (lecternWith None) exampleModelManager
       exampleMaterialPicker emptyWorld).
Proof.
  apply (registry_renderers_append
           (mkEntry (Exact "lectern") renderLecternBlock (Some true))
           lectern_entry_listed).
Defined.

(* ===================================================================== *)
(** ** The cuboid builder: corners and faces *)
(* ===================================================================== *)

Section BoxFaces.

Variables (texture : TextureId) (materialPicker : MaterialPicker)
          (from size : Q * Q * Q) (texOff : Q * Q) (poseOff : Q * Q * Q)
          (rotation : Rotation) (visibleFaces : list Direction)
          (mirror shade : bool).

Lemma boxFace_visible (d : Direction) (face : ModelFace) :
  boxFace (boxModel texture materialPicker from size texOff poseOff rotation
             visibleFaces mirror shade) d = Some face ->
  d ∈ visibleFaces.
Proof.
  destruct from as [[fromX fromY] fromZ], size as [[width height] depth],
    texOff as [texOffX texOffY], poseOff as [[poseOffX poseOffY] poseOffZ].
  unfold boxFace, boxModel, bakeModel, boxModelDescription, directionFacesOf.
  cbn [baked_elements elements el_faces].
  intros Hface. assert (Hsome : is_Some (Some face)) by now eexists.
  rewrite <- Hface in Hsome. clear Hface. revert Hsome.
  destruct mirror; rewrite !is_Some_putFace, lookup_empty;
    intros H; repeat (destruct H as [[-> H] | H]; [exact H |]);
    now destruct H.
Qed.

Lemma boxFace_shape (d : Direction) (face : ModelFace) :
  boxFace (boxModel texture materialPicker from size texOff poseOff rotation
             visibleFaces mirror shade) d = Some face ->
  face_texture face = texture
  /\ face_rotation face = (if bool_decide (d = UP) then Some 180%Z else None)
  /\ exists u0 v0 u1 v1 : Q, face_uv face = [u0; v0; u1; v1].
Proof.
  intros Hface. pose proof (boxFace_visible d face Hface) as Hin.
  revert Hface.
  destruct from as [[fromX fromY] fromZ], size as [[width height] depth],
    texOff as [texOffX texOffY], poseOff as [[poseOffX poseOffY] poseOffZ].
  unfold boxFace, boxModel, bakeModel, boxModelDescription, directionFacesOf.
  cbn [baked_elements elements el_faces].
  destruct mirror, d;
    repeat first
      [ rewrite lookup_putFace_ne by discriminate
      | rewrite lookup_putFace_eq by assumption ];
    intros [= <-]; cbn [face_texture face_rotation face_uv];
    (split; [reflexivity | split; [reflexivity |]]);
    do 4 eexists; reflexivity.
Qed.

End BoxFaces.

(** X11.  Every face of a box model carries the texture the box was asked
    for and a rectangle of four numbers; the UP face, and only it, is turned
    by 180 degrees. *)
Theorem boxModel_face_shape
    (texture : TextureId) (materialPicker : MaterialPicker)
    (from size : Q * Q * Q) (texOff : Q * Q) (poseOff : Q * Q * Q)
    (rotation : Rotation) (visibleFaces : list Direction)
    (mirror shade : bool) (d : Direction) (face : ModelFace) :
  boxFace (boxModel texture materialPicker from size texOff poseOff rotation
             visibleFaces mirror shade) d = Some face ->
  face_texture face = texture
  /\ face_rotation face = (if bool_decide (d = UP) then Some 180%Z else None)
  /\ length (face_uv face) = 4%nat.
Proof.
  intros Hface.
  destruct (boxFace_shape _ _ _ _ _ _ _ _ _ _ _ _ Hface)
    as (Htex & Hrot & u0 & v0 & u1 & v1 & Huv).
  now rewrite Huv.
Qed.

Lemma boxModel_face_shape_witness :
  exists face,
    boxFace (boxModel (Some 1%N) exampleMaterialPicker (0, 0, 0)%Q (2, 3, 4)%Q
               (10, 20)%Q defaultPoseOff IDENTITY_ROTATION defaultVisibleFaces
               false true) UP = Some face
    /\ face_texture face = Some 1%N
    /\ face_rotation face = Some 180%Z
    /\ length (face_uv face) = 4%nat.
Proof.
  eexists. split; [reflexivity |].
  apply (boxModel_face_shape (Some 1%N) exampleMaterialPicker (0, 0, 0)%Q
           (2, 3, 4)%Q (10, 20)%Q defaultPoseOff IDENTITY_ROTATION
           defaultVisibleFaces false true UP).
  reflexivity.
Defined.

(** X12.  For whole-number texture offsets and sizes of magnitude at most
    2^48 (so that the doubles of the source add without rounding) and sizes
    that are not negative, every UV coordinate of every face is a whole
    number inside the unfolded layout of the box: U between the texture
    offset and the offset plus twice depth plus width, V between the offset
    and the offset plus depth plus height. *)
Theorem boxModel_uv_within_layout
    (texture : TextureId) (materialPicker : MaterialPicker)
    (from : Q * Q * Q) (width height depth texOffX texOffY : Z)
    (poseOff : Q * Q * Q) (rotation : Rotation)
    (visibleFaces : list Direction) (mirror shade : bool)
    (d : Direction) (face : ModelFace) :
  (0 <= width <= 2 ^ 48)%Z -> (0 <= height <= 2 ^ 48)%Z ->
  (0 <= depth <= 2 ^ 48)%Z ->
  (Z.abs texOffX <= 2 ^ 48)%Z -> (Z.abs texOffY <= 2 ^ 48)%Z ->
  boxFace (boxModel texture materialPicker from
             (inject_Z width, inject_Z height, inject_Z depth)
             (inject_Z texOffX, inject_Z texOffY) poseOff rotation
             visibleFaces mirror shade) d
  = Some face ->
  exists u0 v0 u1 v1 : Z,
    face_uv face = [inject_Z u0; inject_Z v0; inject_Z u1; inject_Z v1]
    /\ (texOffX <= u0 <= texOffX + 2 * (depth + width))%Z
    /\ (texOffX <= u1 <= texOffX + 2 * (depth + width))%Z
    /\ (texOffY <= v0 <= texOffY + depth + height)%Z
    /\ (texOffY <= v1 <= texOffY + depth + height)%Z
    /\ Forall (fun c => (Z.abs c <= 2 ^ 51)%Z) [u0; v0; u1; v1].
Proof.
  intros Hw Hh Hd Hx Hy Hface.
  pose proof (boxFace_visible _ _ _ _ _ _ _ _ _ _ _ _ Hface) as Hin.
  revert Hface. destruct from as [[fromX fromY] fromZ],
    poseOff as [[poseOffX poseOffY] poseOffZ].
  unfold boxFace, boxModel, bakeModel, boxModelDescription, directionFacesOf.
  cbn [baked_elements elements el_faces].
  destruct mirror, d;
    repeat first
      [ rewrite lookup_putFace_ne by discriminate
      | rewrite lookup_putFace_eq by assumption ];
    intros [= <-]; cbn [face_uv];
    rewrite <- !inject_Z_plus;
    do 4 eexists; (split; [reflexivity |]);
    repeat split; try lia; repeat constructor; lia.
Qed.

Lemma boxModel_uv_within_layout_witness :
  exists (face : ModelFace) (u0 v0 u1 v1 : Z),
    boxFace (boxModel (Some 1%N) exampleMaterialPicker (0, 0, 0)%Q
               (inject_Z 2, inject_Z 3, inject_Z 4) (inject_Z 10, inject_Z 20)
               defaultPoseOff IDENTITY_ROTATION defaultVisibleFaces
               true true) SOUTH = Some face
    /\ face_uv face = [inject_Z u0; inject_Z v0; inject_Z u1; inject_Z v1]
    /\ (10 <= u0 <= 10 + 2 * (4 + 2))%Z
    /\ (10 <= u1 <= 10 + 2 * (4 + 2))%Z
    /\ (20 <= v0 <= 20 + 4 + 3)%Z
    /\ (20 <= v1 <= 20 + 4 + 3)%Z.
Proof.
  eexists.
  assert (H := boxModel_uv_within_layout (Some 1%N) exampleMaterialPicker
                 (0, 0, 0)%Q 2 3 4 10 20 defaultPoseOff IDENTITY_ROTATION
                 defaultVisibleFaces true true SOUTH).
  edestruct H as (u0 & v0 & u1 & v1 & Huv & Hu0 & Hu1 & Hv0 & Hv1 & _);
    [lia | lia | lia | lia | lia | reflexivity |].
  exists u0, v0, u1, v1.
  split; [reflexivity |]. auto.
Defined.

(** X13.  For whole-number origin, size and pose offset of magnitude at
    most 2^48 (so that the doubles of the source add without rounding), the
    corners of the cuboid are whole numbers, the cuboid measures exactly the
    requested size along each axis, and with a size that is not negative the
    first corner is at most the second on that axis; the element carries the
    requested shade flag. *)
Theorem boxModel_extent
    (texture : TextureId) (materialPicker : MaterialPicker)
    (fromX fromY fromZ width height depth poseOffX poseOffY poseOffZ : Z)
    (texOff : Q * Q) (rotation : Rotation)
    (visibleFaces : list Direction) (mirror shade : bool) :
  Forall (fun c => (Z.abs c <= 2 ^ 48)%Z)
         [fromX; fromY; fromZ; width; height; depth;
          poseOffX; poseOffY; poseOffZ] ->
  exists (el : ModelElement) (x0 y0 z0 x1 y1 z1 : Z),
    baked_elements
      (boxModel texture materialPicker
         (inject_Z fromX, inject_Z fromY, inject_Z fromZ)
         (inject_Z width, inject_Z height, inject_Z depth) texOff
         (inject_Z poseOffX, inject_Z poseOffY, inject_Z poseOffZ)
         rotation visibleFaces mirror shade) = [el]
    /\ el_from el = [inject_Z x0; inject_Z y0; inject_Z z0]
    /\ el_to el = [inject_Z x1; inject_Z y1; inject_Z z1]
    /\ el_shade el = shade
    /\ (x1 - x0 = width)%Z /\ (y1 - y0 = height)%Z /\ (z1 - z0 = depth)%Z
    /\ ((0 <= width)%Z -> (x0 <= x1)%Z)
    /\ ((0 <= height)%Z -> (y0 <= y1)%Z)
    /\ ((0 <= depth)%Z -> (z0 <= z1)%Z)
    /\ Forall (fun c => (Z.abs c <= 2 ^ 50)%Z) [x0; y0; z0; x1; y1; z1].
Proof.
  intros Hbound.
  repeat match goal with
         | H : Forall _ (_ :: _) |- _ => apply Forall_cons in H as [? H]
         end.
  destruct texOff as [texOffX texOffY].
  unfold boxModel, bakeModel, boxModelDescription.
  cbn [baked_elements elements].
  rewrite <- !inject_Z_plus.
  do 7 eexists.
  split; [reflexivity |].
  cbn [el_from el_to el_shade].
  split; [reflexivity | split; [reflexivity | split; [reflexivity |]]].
  repeat split; try lia; repeat constructor; lia.
Qed.

Lemma boxModel_extent_witness :
  exists (el : ModelElement) (x0 y0 z0 x1 y1 z1 : Z),
    baked_elements
      (boxModel (Some 1%N) exampleMaterialPicker
         (inject_Z 1, inject_Z 0, inject_Z 1)
         (inject_Z 14, inject_Z 10, inject_Z 14) (0, 19)%Q
         (inject_Z 0, inject_Z 9, inject_Z 1) IDENTITY_ROTATION
         defaultVisibleFaces false true) = [el]
    /\ el_from el = [inject_Z x0; inject_Z y0; inject_Z z0]
    /\ el_to el = [inject_Z x1; inject_Z y1; inject_Z z1]
    /\ (x0 <= x1)%Z /\ (y0 <= y1)%Z /\ (z0 <= z1)%Z.
Proof.
  destruct (boxModel_extent (Some 1%N) exampleMaterialPicker 1 0 1 14 10 14
              0 9 1 (0, 19)%Q IDENTITY_ROTATION defaultVisibleFaces false true)
    as (el & x0 & y0 & z0 & x1 & y1 & z1 & Hel & Hfrom & Hto & _ & _ & _ & _
        & Hx & Hy & Hz & _).
  - repeat constructor; vm_compute; discriminate.
  - exists el, x0, y0, z0, x1, y1, z1.
    repeat split; try assumption; [apply Hx | apply Hy | apply Hz]; lia.
Defined.

(* ===================================================================== *)
(** ** Renderers: variants *)
(* ===================================================================== *)

Section Variants.

Variables (x y z : Z) (blockState : BlockState)
          (modelManager : BlockStateModelManager)
          (materialPicker : MaterialPicker) (w : World).

Lemma boxModel7_usesTexture texture from size texOff poseOff rotation
    block material flag :
  usesTexture texture
    (mkFragment (boxModel7 texture materialPicker from size texOff poseOff rotation)
                block material flag).
Proof.
  intros d face Hface. unfold boxModel7 in Hface. cbn [frag_model] in Hface.
  now apply boxFace_shape in Hface.
Qed.

(** X14.  Each chest variant paints its three cuboids with its own texture
    slot of the block (single: slot 0, left: slot 1, right: slot 2) and
    records on each the rotation that belongs to the facing property. *)
Theorem renderChest_variant_texture (type : string) (slot : nat) :
  (type, slot) ∈ chestVariants ->
  blockProperties blockState !! "type" = Some type ->
  exists bottom lid lock : Fragment,
    scene (renderChest x y z blockState modelManager materialPicker w)
      = scene w ++ [bottom; lid; lock]
    /\ console (renderChest x y z blockState modelManager materialPicker w)
       = console w
    /\ Forall
         (fun f =>
            usesTexture
              (getSpecialBlocksData modelManager (blockName blockState) !! slot) f
            /\ baked_rotation (frag_model f)
               = fromFacingToRotation (blockProperties blockState !! "facing"))
         [bottom; lid; lock].
Proof.
  unfold chestVariants. rewrite !elem_of_cons, elem_of_nil.
  intros [[= -> ->] | [[= -> ->] | [[= -> ->] | []]]] Htype;
    unfold renderChest, propIs; rewrite Htype;
    rewrite ?(bool_decide_eq_false_2 (Some _ = Some _)) by discriminate;
    rewrite bool_decide_eq_true_2 by reflexivity;
    do 3 eexists;
    rewrite !scene_render, !console_render, <- !app_assoc;
    (split; [reflexivity | split; [reflexivity |]]);
    repeat constructor; apply boxModel7_usesTexture.
Qed.

(** X15.  A bed renders its slab and two posts when part is "head" or
    "foot"; for every other value, and when the property is missing, it adds
    nothing to the scene and logs exactly one warning with the value. *)
Theorem renderBed_parts (part : option string) :
  blockProperties blockState !! "part" = part ->
  (part = Some "head" \/ part = Some "foot" ->
   exists slab leftPost rightPost : Fragment,
     scene (renderBed x y z blockState modelManager materialPicker w)
       = scene w ++ [slab; leftPost; rightPost]
     /\ console (renderBed x y z blockState modelManager materialPicker w)
        = console w)
  /\ (part <> Some "head" -> part <> Some "foot" ->
      scene (renderBed x y z blockState modelManager materialPicker w) = scene w
      /\ console (renderBed x y z blockState modelManager materialPicker w)
         = console w ++ [mkWarning "Unknown bed part" part]).
Proof.
  intros Hpart. unfold renderBed, propIs. rewrite Hpart. split.
  - intros [-> | ->];
      rewrite ?(bool_decide_eq_false_2 (Some _ = Some _)) by discriminate;
      rewrite bool_decide_eq_true_2 by reflexivity;
      do 3 eexists;
      rewrite !scene_render, !console_render, <- !app_assoc;
      split; reflexivity.
  - intros Hhead Hfoot. rewrite !bool_decide_eq_false_2 by assumption.
    split; reflexivity.
Qed.

(** X16.  A banner always renders the bar and then the flag; the pole comes
    first and only when the name does not end in _wall_banner.  Nothing is
    logged.  The flag, and only the flag, gets a material that is
    double-sided and carries the dye colour found for the name. *)
Theorem renderBanner_fragments :
  exists (poles : list Fragment) (bar flag : Fragment),
    scene (renderBanner x y z blockState modelManager materialPicker w)
      = scene w ++ poles ++ [bar; flag]
    /\ console (renderBanner x y z blockState modelManager materialPicker w)
       = console w
    /\ (endsIn (blockName blockState) "_wall_banner" -> poles = [])
    /\ (~ endsIn (blockName blockState) "_wall_banner" -> length poles = 1%nat)
    /\ Forall (fun f => frag_material f = plainMaterial materialPicker solid)
              (poles ++ [bar])
    /\ forall animated : bool,
         mat_side (frag_material flag animated) = DoubleSide
         /\ mat_pass (frag_material flag animated)
            = mat_pass (plainMaterial materialPicker solid animated)
         /\ (forall hex, bannerDyeColor (blockName blockState) = Some hex ->
             mat_color (frag_material flag animated) = Some hex).
Proof.
  unfold renderBanner.
  destruct (JS.endsWith (blockName blockState) "_wall_banner") eqn:Hwall.
  - exists []. do 2 eexists.
    rewrite !scene_render, !console_render, <- !app_assoc.
    split; [reflexivity | split; [reflexivity |]].
    split; [reflexivity |].
    split; [intros Hnot; exfalso; apply Hnot; now apply endsWith_endsIn |].
    split; [repeat constructor |].
    intros animated. cbn [frag_material].
    split; [reflexivity |].
    split; [now destruct (bannerDyeColor (blockName blockState)) |].
    intros hex Hdye. now rewrite Hdye.
  - eexists [_]. do 2 eexists.
    rewrite !scene_render, !console_render, <- !app_assoc.
    split; [reflexivity | split; [reflexivity |]].
    split; [intros Hends; apply endsWith_endsIn in Hends; congruence |].
    split; [reflexivity |].
    split; [repeat constructor |].
    intros animated. cbn [frag_material].
    split; [reflexivity |].
    split; [now destruct (bannerDyeColor (blockName blockState)) |].
    intros hex Hdye. now rewrite Hdye.
Qed.

(** X17.  The skull renderer picks its head by the name: the dragon head of
    seven cuboids when the name contains dragon, else the piglin head of six
    when it contains piglin, else the plain head of one; every cuboid gets
    the translucent material when the name contains player and the
    double-sided cutout material otherwise. *)
Theorem renderSkull_dispatch :
  exists head : list Fragment,
    scene (renderSkull x y z blockState modelManager materialPicker w)
      = scene w ++ head
    /\ console (renderSkull x y z blockState modelManager materialPicker w)
       = console w
    /\ length head
       = (if JS.includes (blockName blockState) "dragon" then 7
          else if JS.includes (blockName blockState) "piglin" then 6
          else 1)%nat
    /\ Forall
         (fun f =>
            forall animated : bool,
              frag_material f animated
              = if JS.includes (blockName blockState) "player"
                then plainMaterial materialPicker translucent animated
                else doubleSided (plainMaterial materialPicker cutout animated))
         head.
Proof.
  unfold renderSkull, renderDragonHead, renderPiglinHead, renderPlainSkull.
  destruct (JS.includes (blockName blockState) "dragon");
    [| destruct (JS.includes (blockName blockState) "piglin")];
    eexists;
    rewrite !scene_render, !console_render, <- ?app_assoc;
    (split; [reflexivity | split; [reflexivity | split; [reflexivity |]]]);
    repeat constructor;
    intros animated; cbn [frag_material];
    now destruct (JS.includes (blockName blockState) "player").
Qed.

(** X18.  A sign renders its board, and its stick unless the name contains
    wall.  A hanging sign renders its board and then: on a wall the plank
    and four chain cuboids; otherwise four chain cuboids when attached is
    "false", and the single V-shaped chain cuboid in every other case, a
    missing attached property included. *)
Theorem renderSign_fragments :
  (exists sign : list Fragment,
     scene (renderSign x y z blockState modelManager materialPicker w)
       = scene w ++ sign
     /\ length sign
        = (if JS.includes (blockName blockState) "wall" then 1 else 2)%nat)
  /\ (exists sign : list Fragment,
        scene (renderHangingSign x y z blockState modelManager materialPicker w)
          = scene w ++ sign
        /\ length sign
           = (if JS.includes (blockName blockState) "wall" then 6
              else if bool_decide
                        (blockProperties blockState !! "attached" = Some "false")
                   then 5 else 2)%nat).
Proof.
  unfold renderSign, renderHangingSign, propIs.
  destruct (JS.includes (blockName blockState) "wall"); cbn [negb];
    (split;
     [ eexists; rewrite !scene_render, <- ?app_assoc; split; reflexivity
     | try case_bool_decide;
       eexists; rewrite !scene_render, <- ?app_assoc; split; reflexivity ]).
Qed.

(** X19.  A decorated pot renders eight fragments: two neck rings, one cap
    model twice, and one side panel model four times.  The side panel has a
    NORTH face and no other, painted with texture slot 1; rings and cap are
    painted with slot 0. *)
Theorem renderDecoratedPot_fragments :
  exists neck1 neck2 cap side : Fragment,
    scene (renderDecoratedPot x y z blockState modelManager materialPicker w)
      = scene w ++ [neck1; neck2; cap; cap; side; side; side; side]
    /\ console (renderDecoratedPot x y z blockState modelManager materialPicker w)
       = console w
    /\ (forall d, is_Some (boxFace (frag_model side) d) <-> d = NORTH)
    /\ usesTexture
         (getSpecialBlocksData modelManager (blockName blockState) !! 1%nat) side
    /\ Forall
         (usesTexture
            (getSpecialBlocksData modelManager (blockName blockState) !! 0%nat))
         [neck1; neck2; cap].
Proof.
  unfold renderDecoratedPot. do 4 eexists.
  rewrite !scene_render, !console_render, <- !app_assoc.
  split; [reflexivity | split; [reflexivity |]].
  split; [| split].
  - intros d. cbn [frag_model]. split.
    + intros [face Hface]. apply boxFace_visible in Hface.
      now apply list_elem_of_singleton in Hface.
    + intros ->. now eexists.
  - intros d face Hface. cbn [frag_model] in Hface.
    now apply boxFace_shape in Hface.
  - repeat constructor; intros d face Hface;
      unfold boxModel5 in Hface; cbn [frag_model] in Hface;
      now apply boxFace_shape in Hface.
Qed.

Lemma shulker_rotation_default (facing : option string) :
  facing ∈ [Some "up"; Some "north"; Some "south"; Some "west"; Some "east"]
  \/ match facing with
     | Some "up" => mkRotation 180 0
     | Some "north" => mkRotation (-90) 0
     | Some "south" => mkRotation 90 0
     | Some "west" => mkRotation (-90) (-90)
     | Some "east" => mkRotation (-90) 90
     | _ => IDENTITY_ROTATION
     end = IDENTITY_ROTATION.
Proof.
  rewrite !elem_of_cons.
  repeat match goal with
         | |- context [match ?v with _ => _ end] =>
             is_var v; destruct v; try (now right)
         end; auto 10.
Qed.

(** X27.  A shulker box always renders two cuboids, lid and base, that share
    one recorded rotation; the rotation is the identity unless facing is up,
    north, south, west or east.  A bell always renders two cuboids, both
    with the rotation that belongs to its facing. *)
Theorem renderShulkerBox_bell_fragments :
  (exists lid base : Fragment,
     scene (renderShulkerBox x y z blockState modelManager materialPicker w)
       = scene w ++ [lid; base]
     /\ baked_rotation (frag_model lid) = baked_rotation (frag_model base)
     /\ (blockProperties blockState !! "facing"
           ∉ [Some "up"; Some "north"; Some "south"; Some "west"; Some "east"] ->
         baked_rotation (frag_model lid) = IDENTITY_ROTATION))
  /\ (exists body base : Fragment,
        scene (renderBell x y z blockState modelManager materialPicker w)
          = scene w ++ [body; base]
        /\ Forall (fun f => baked_rotation (frag_model f)
                            = fromFacingToRotation
                                (blockProperties blockState !! "facing"))
                  [body; base]).
Proof.
  split.
  - unfold renderShulkerBox. do 2 eexists.
    rewrite !scene_render, <- !app_assoc.
    split; [reflexivity | split; [reflexivity |]].
    intros Hfacing. cbn [frag_model boxModel7 boxModel bakeModel baked_rotation].
    destruct (shulker_rotation_default (blockProperties blockState !! "facing"))
      as [Hin | Hid]; [contradiction | exact Hid].
  - unfold renderBell. do 2 eexists.
    rewrite !scene_render, <- !app_assoc.
    split; [reflexivity | repeat constructor].
Qed.

End Variants.

(* ===================================================================== *)
(** ** Facing and dye colour *)
(* ===================================================================== *)

Section Facing.

Lemma fromFacingToRotation_cases (facing : option string) :
  (facing = Some "west" /\ fromFacingToRotation facing = mkRotation 0 90)
  \/ (facing = Some "north" /\ fromFacingToRotation facing = mkRotation 0 180)
  \/ (facing = Some "east" /\ fromFacingToRotation facing = mkRotation 0 270)
  \/ fromFacingToRotation facing = mkRotation 0 0.
Proof.
  unfold fromFacingToRotation.
  repeat match goal with
         | |- context [match ?v with _ => _ end] =>
             is_var v; destruct v; try (now repeat right)
         end; auto 10.
Qed.

(** X20.  [fromFacingToRotation] never turns about the X axis and turns
    about the Y axis by 0, 90, 180 or 270 degrees; it turns at all only for
    west, north and east, so a missing or unknown facing is treated like
    south; and the four horizontal facings get four different rotations. *)
Theorem fromFacingToRotation_range (facing : option string) :
  rot_x (fromFacingToRotation facing) = 0%Z
  /\ rot_y (fromFacingToRotation facing) ∈ [0; 90; 180; 270]%Z
  /\ (fromFacingToRotation facing <> IDENTITY_ROTATION ->
      facing ∈ [Some "west"; Some "north"; Some "east"])
  /\ NoDup (fromFacingToRotation <$> [Some "south"; Some "west"; Some "north"; Some "east"]).
Proof.
  rewrite !elem_of_cons.
  destruct (fromFacingToRotation_cases facing)
    as [[-> ->] | [[-> ->] | [[-> ->] | ->]]]; cbn [rot_x rot_y];
    (split; [reflexivity |]); (split; [auto 10 |]);
    (split; [intros H; first [now contradiction H | auto 10] |]);
    cbn; repeat constructor; rewrite ?elem_of_cons, ?elem_of_nil; intuition discriminate.
Qed.

End Facing.

Section DyeColour.

Local Arguments String.append !s1 s2 : simpl nomatch.
Local Open Scope Z_scope.

Lemma indexOf_lower (s : string) (c : ascii) : -1 <= JS.indexOf s c.
Proof.
  induction s as [|c' s IH]; cbn [JS.indexOf]; [lia |].
  destruct (Ascii.eqb c' c); [lia |].
  destruct (JS.indexOf s c <? 0) eqn:H; lia.
Qed.

Lemma substring_before_start (s : string) (i : Z) :
  i <= 0 -> JS.substring s 0 i = EmptyString.
Proof.
  intros Hi. unfold JS.substring.
  replace (Z.max 0 (Z.min i (Z.of_nat (String.length s)))) with 0 by lia.
  replace (Z.max 0 (Z.min 0 (Z.of_nat (String.length s)))) with 0 by lia.
  cbn. now destruct s.
Qed.

Lemma substring_step (c : ascii) (s : string) (i : Z) :
  0 <= i ->
  JS.substring (String c s) 0 (i + 1) = String c (JS.substring s 0 i).
Proof.
  intros Hi. unfold JS.substring. cbn [String.length].
  set (len := Z.of_nat (String.length s)).
  replace (Z.of_nat (S (String.length s))) with (len + 1) by lia.
  replace (Z.max 0 (Z.min 0 (len + 1))) with 0 by lia.
  replace (Z.max 0 (Z.min 0 len)) with 0 by lia.
  replace (Z.max 0 (Z.min (i + 1) (len + 1)))
    with (Z.max 0 (Z.min i len) + 1) by lia.
  replace (Z.min 0 (Z.max 0 (Z.min i len) + 1)) with 0 by lia.
  replace (Z.min 0 (Z.max 0 (Z.min i len))) with 0 by lia.
  replace (Z.max 0 (Z.max 0 (Z.min i len) + 1))
    with (Z.max 0 (Z.min i len) + 1) by lia.
  replace (Z.max 0 (Z.max 0 (Z.min i len))) with (Z.max 0 (Z.min i len)) by lia.
  rewrite !Z.sub_0_r.
  replace (Z.to_nat (Z.max 0 (Z.min i len) + 1))
    with (S (Z.to_nat (Z.max 0 (Z.min i len)))) by lia.
  reflexivity.
Qed.

(** The text before the first [c]: either [c] does not occur and the text is
    empty, or the string is that text, [c], and a rest; the text itself is
    free of [c]. *)
Lemma before_first_spec (s : string) (c : ascii) :
  JS.indexOf (JS.substring s 0 (JS.indexOf s c)) c = -1
  /\ ((JS.indexOf s c = -1 /\ JS.substring s 0 (JS.indexOf s c) = EmptyString)
      \/ exists rest,
           s = String.append (JS.substring s 0 (JS.indexOf s c)) (String c rest)).
Proof.
  induction s as [|c' s [IHfree IH]]; cbn [JS.indexOf].
  - split; [reflexivity | now left].
  - destruct (Ascii.eqb_spec c' c) as [-> | Hne].
    + rewrite substring_before_start by lia. split; [reflexivity |].
      right. now exists s.
    + destruct (JS.indexOf s c <? 0) eqn:Hneg.
      * rewrite substring_before_start by lia. split; [reflexivity | now left].
      * apply Z.ltb_ge in Hneg. rewrite substring_step by exact Hneg.
        split.
        -- cbn [JS.indexOf]. destruct (Ascii.eqb_spec c' c); [congruence |].
           now rewrite IHfree.
        -- right. destruct IH as [[Habsent _] | [rest Hrest]]; [lia |].
           exists rest. cbn. now rewrite <- Hrest.
Qed.

Lemma before_first_append (color rest : string) (c : ascii) :
  JS.indexOf color c = -1 ->
  JS.substring (String.append color (String c rest)) 0
    (JS.indexOf (String.append color (String c rest)) c) = color.
Proof.
  induction color as [|c' color IH]; cbn [JS.indexOf String.append]; intros Hfree.
  - rewrite Ascii.eqb_refl. apply substring_before_start. lia.
  - destruct (Ascii.eqb c' c); [discriminate |].
    destruct (JS.indexOf color c <? 0) eqn:Hneg; [| lia].
    pose proof (indexOf_lower color c) as Hlow.
    assert (Hc : JS.indexOf color c = -1) by (apply Z.ltb_lt in Hneg; lia).
    specialize (IH Hc).
    pose proof (before_first_spec (String.append color (String c rest)) c)
      as [_ [[Habsent Hempty] | [rest' Hrest']]].
    + rewrite Habsent in *. rewrite Hempty in IH. subst color.
      cbn in Habsent. rewrite Ascii.eqb_refl in Habsent. discriminate.
    + destruct (JS.indexOf (String.append color (String c rest)) c <? 0) eqn:Hn.
      * exfalso. apply Z.ltb_lt in Hn.
        pose proof (indexOf_lower (String.append color (String c rest)) c).
        assert (Hm : JS.indexOf (String.append color (String c rest)) c = -1) by lia.
        rewrite Hm in IH. rewrite substring_before_start in IH by lia.
        subst color. cbn in Hm. rewrite Ascii.eqb_refl in Hm. discriminate.
      * apply Z.ltb_ge in Hn. rewrite substring_step by exact Hn.
        now rewrite IH.
Qed.

Lemma dyeColorMapping_keys (key : string) (hex : N) :
  dyeColorMapping !! key = Some hex -> key ∈ dyeColorNames.
Proof.
  intros Hlook. unfold dyeColorMapping in Hlook.
  apply elem_of_list_to_map_2 in Hlook.
  unfold dyeColorNames. rewrite !elem_of_cons, elem_of_nil in *.
  repeat (destruct Hlook as [[= -> _] | Hlook]; [auto 40 |]).
  now apply elem_of_nil in Hlook.
Qed.

Lemma one_word_colour_found (color : string) :
  color ∈ oneWordDyeColors ->
  JS.indexOf color "_" = -1 /\ is_Some (dyeColorMapping !! color).
Proof.
  unfold oneWordDyeColors. rewrite !elem_of_cons, elem_of_nil.
  intros Hcolor.
  repeat (destruct Hcolor as [-> | Hcolor]; [split; [reflexivity | now eexists] |]).
  destruct Hcolor.
Qed.

Lemma own_key_one_word (key : string) (hex : N) :
  JS.indexOf key "_" = -1 ->
  dyeColorMapping !! key = Some hex ->
  key ∈ oneWordDyeColors
  /\ hex <> 0x3ab3da%N /\ hex <> 0x9d9d97%N.
Proof.
  intros Hfree Hlook. pose proof (dyeColorMapping_keys _ _ Hlook) as Hkey.
  unfold dyeColorNames, oneWordDyeColors in *.
  rewrite !elem_of_cons, elem_of_nil in *.
  repeat (destruct Hkey as [Hkey | Hkey];
          [ rewrite Hkey in Hfree, Hlook; vm_compute in Hfree, Hlook;
            first [ discriminate Hfree
                  | injection Hlook as <-;
                    split; [rewrite Hkey; auto 40 | split; discriminate] ]
          | ]).
  destruct Hkey.
Qed.

Lemma prototype_key_one_word (key : string) :
  JS.indexOf key "_" = -1 ->
  key ∈ objectPrototypeKeys -> key ∈ oneWordPrototypeKeys.
Proof.
  unfold objectPrototypeKeys, oneWordPrototypeKeys.
  rewrite !elem_of_cons, !elem_of_nil. intros Hfree Hkey.
  repeat (destruct Hkey as [Hkey | Hkey];
          [ rewrite Hkey in Hfree; vm_compute in Hfree;
            first [discriminate Hfree | rewrite Hkey; auto 20] |]).
  destruct Hkey.
Qed.

Lemma one_word_prototype_key_inherited (key : string) :
  key ∈ oneWordPrototypeKeys ->
  JS.indexOf key "_" = -1 /\ readDyeColorMapping key = Inherited.
Proof.
  unfold oneWordPrototypeKeys. rewrite !elem_of_cons, elem_of_nil.
  intros Hkey.
  repeat (destruct Hkey as [-> | Hkey]; [split; vm_compute; reflexivity |]).
  destruct Hkey.
Qed.

(** X21.  Read on the plain object literal, the banner's dye lookup yields a
    number of the table exactly when the block name is one of the fourteen
    one-word colour names followed by an underscore and anything, and then
    that colour's number; it yields a member inherited from
    [Object.prototype] exactly when the name is constructor, toString or
    another underscore-free prototype name followed by an underscore and
    anything; a name without underscore yields [undefined]; and no name ever
    reads the table's light_blue or light_gray number. *)
Theorem bannerDyeRead_cases (name : string) :
  (forall hex, bannerDyeRead name = OwnNumber hex <-> bannerDyeColor name = Some hex)
  /\ (forall hex,
        bannerDyeRead name = OwnNumber hex
        <-> exists color rest,
              color ∈ oneWordDyeColors
              /\ name = String.append color (String "_" rest)
              /\ dyeColorMapping !! color = Some hex)
  /\ (bannerDyeRead name = Inherited
      <-> exists key rest,
            key ∈ oneWordPrototypeKeys
            /\ name = String.append key (String "_" rest))
  /\ (JS.indexOf name "_" = -1 -> bannerDyeRead name = NotFound)
  /\ bannerDyeRead name <> OwnNumber 0x3ab3da%N
  /\ bannerDyeRead name <> OwnNumber 0x9d9d97%N.
Proof.
  unfold bannerDyeRead, bannerDyeColor.
  pose proof (before_first_spec name "_") as [Hfree Hsplit].
  set (key := JS.substring name 0 (JS.indexOf name "_")) in *.
  assert (Hown : forall hex,
             readDyeColorMapping key = OwnNumber hex
             <-> dyeColorMapping !! key = Some hex).
  { intros hex. unfold readDyeColorMapping.
    destruct (dyeColorMapping !! key); [| case_bool_decide];
      split; congruence. }
  split; [exact Hown |].
  split; [| split; [| split; [| split]]].
  - intros hex. rewrite Hown. split.
    + intros Hlook. destruct (own_key_one_word key hex Hfree Hlook) as [Hkey _].
      destruct Hsplit as [[_ Hempty] | [rest Hrest]].
      * exfalso. rewrite Hempty in Hlook. discriminate Hlook.
      * now exists key, rest.
    + intros (color & rest & Hcolor & -> & Hlook).
      destruct (one_word_colour_found color Hcolor) as [Hcfree _].
      subst key. now rewrite before_first_append by exact Hcfree.
  - split.
    + intros Hread. unfold readDyeColorMapping in Hread.
      destruct (dyeColorMapping !! key) eqn:Hlook; [discriminate |].
      case_bool_decide as Hproto; [| discriminate].
      apply (prototype_key_one_word key Hfree) in Hproto.
      destruct Hsplit as [[_ Hempty] | [rest Hrest]].
      * exfalso. rewrite Hempty in Hproto.
        unfold oneWordPrototypeKeys in Hproto.
        rewrite !elem_of_cons, elem_of_nil in Hproto.
        intuition discriminate.
      * now exists key, rest.
    + intros (pkey & rest & Hpkey & ->).
      destruct (one_word_prototype_key_inherited pkey Hpkey) as [Hpfree Hinh].
      subst key. now rewrite before_first_append by exact Hpfree.
  - intros Habsent. subst key. rewrite Habsent.
    now rewrite substring_before_start by lia.
  - intros Hread. apply Hown in Hread.
    now destruct (own_key_one_word key _ Hfree Hread) as (_ & H & _).
  - intros Hread. apply Hown in Hread.
    now destruct (own_key_one_word key _ Hfree Hread) as (_ & _ & H).
Qed.

End DyeColour.


(* ===================================================================== *)
(** ** Special textures: results *)
(* ===================================================================== *)

Section SpecialTextureFacts.

Variables (ATLAS_WIDTH ATLAS_HEIGHT ANIMATED_TEXTURE_ATLAS_SIZE : Q).
Variable AnimatedTextureManager : Type.
Variable putNewTexture :
  N -> Sprite -> list (option Q) -> AnimatedTextureManager ->
  list Q * AnimatedTextureManager.
Variable atlasMapping : gmap N Sprite.

Local Abbreviation resolveSprite' :=
  (resolveSprite ATLAS_WIDTH ATLAS_HEIGHT ANIMATED_TEXTURE_ATLAS_SIZE
     AnimatedTextureManager putNewTexture atlasMapping).
Local Abbreviation resolveSprites' :=
  (resolveSprites ATLAS_WIDTH ATLAS_HEIGHT ANIMATED_TEXTURE_ATLAS_SIZE
     AnimatedTextureManager putNewTexture atlasMapping).
Local Abbreviation resolveSpecialTextures' :=
  (resolveSpecialTextures ATLAS_WIDTH ATLAS_HEIGHT ANIMATED_TEXTURE_ATLAS_SIZE
     AnimatedTextureManager putNewTexture atlasMapping).

Lemma resolveSprite_some_iff (texture : N) (manager : AnimatedTextureManager) :
  is_Some (fst (resolveSprite' texture manager)) <-> resolvable atlasMapping texture.
Proof.
  unfold resolveSprite, resolvable.
  destruct (atlasMapping !! texture) as [[rect | frames] |]; cbn [fst].
  - split; [easy | now eexists].
  - destruct (frames !! 0%nat ≫= _) as [first |].
    + destruct (putNewTexture _ _ _ _). cbn [fst]. split; now eexists.
    + cbn [fst]. split; intros [? H]; discriminate H.
  - split; [intros [? H]; discriminate H | easy].
Qed.

Lemma resolveSprite_rect (texture : N) (manager manager' : AnimatedTextureManager)
    (rect : list (option Q)) :
  resolveSprite' texture manager = (Some rect, manager') ->
  length rect = 6%nat
  /\ (rect !! 4%nat = Some (Some ATLAS_WIDTH) /\ rect !! 5%nat = Some (Some ATLAS_HEIGHT)
      \/ rect !! 4%nat = Some (Some ANIMATED_TEXTURE_ATLAS_SIZE)
         /\ rect !! 5%nat = Some (Some ANIMATED_TEXTURE_ATLAS_SIZE)).
Proof.
  unfold resolveSprite.
  destruct (atlasMapping !! texture) as [[sprite | frames] |]; [| | discriminate].
  - intros [= <- _]. split; [reflexivity | now left].
  - destruct (frames !! 0%nat ≫= _) as [first |]; [| discriminate].
    destruct (putNewTexture _ _ _ _). intros [= <- _].
    split; [reflexivity | now right].
Qed.

Lemma resolveSprites_some (ids : list N) (manager manager' : AnimatedTextureManager)
    (rects : list (list (option Q))) :
  resolveSprites' ids manager = (Some rects, manager') ->
  length rects = length ids
  /\ Forall (fun rect => length rect = 6%nat) rects.
Proof.
  revert manager manager' rects.
  induction ids as [|texture rest IH]; intros manager manager' rects;
    cbn [resolveSprites].
  - intros [= <- _]. split; [reflexivity | constructor].
  - destruct (resolveSprite' texture manager) as [[rect |] m1] eqn:Hone;
      [| discriminate].
    destruct (resolveSprites' rest m1) as [[rects' |] m2] eqn:Hrest;
      [| discriminate].
    intros [= <- _]. destruct (IH _ _ _ Hrest) as [Hlen Hall].
    apply resolveSprite_rect in Hone as [Hsix _].
    split; [cbn; now rewrite Hlen | now constructor].
Qed.

Lemma resolveSprites_none_iff (ids : list N) (manager : AnimatedTextureManager) :
  fst (resolveSprites' ids manager) = None
  <-> Exists (fun texture => ~ resolvable atlasMapping texture) ids.
Proof.
  revert manager. induction ids as [|texture rest IH]; intros manager;
    cbn [resolveSprites].
  - split; [discriminate | intros H; inversion H].
  - rewrite Exists_cons.
    pose proof (resolveSprite_some_iff texture manager) as Hone.
    destruct (resolveSprite' texture manager) as [[rect |] m1]; cbn [fst] in *.
    + specialize (IH m1).
      destruct (resolveSprites' rest m1) as [[rects |] m2]; cbn [fst] in *.
      * split; [discriminate |].
        intros [Hbad | Hbad].
        -- exfalso. apply Hbad, Hone. now eexists.
        -- now apply IH in Hbad.
      * split; [intros _; right; now apply IH | reflexivity].
    + split; [intros _; left | reflexivity].
      intros Hres. apply Hone in Hres as [? H]. discriminate H.
Qed.

Lemma resolveSprites_static (ids : list N) (manager : AnimatedTextureManager) :
  Forall (staticSlot atlasMapping) ids ->
  resolveSprites' ids manager
  = (Some (map (fun texture =>
                  match atlasMapping !! texture with
                  | Some (StaticSprite sprite) =>
                      [sprite !! 0%nat; sprite !! 1%nat; sprite !! 2%nat;
                       sprite !! 3%nat; Some ATLAS_WIDTH; Some ATLAS_HEIGHT]
                  | _ => []
                  end) ids),
     manager).
Proof.
  induction 1 as [|texture rest [rect Hrect] _ IH]; cbn [resolveSprites map].
  - reflexivity.
  - unfold resolveSprite at 1. rewrite Hrect, IH. reflexivity.
Qed.

(** X24.  When [resolveSpecialTextures] returns, it returns one material and
    one rectangle per texture slot of the block, and every rectangle has six
    entries. *)
Theorem resolveSpecialTextures_lengths (blockName : string)
    (materialPicker : MaterialPicker) (modelManager : BlockStateModelManager)
    (renderType : RenderType) (manager manager' : AnimatedTextureManager)
    (materials : list MeshBasicMaterial) (rects : list (list (option Q))) :
  resolveSpecialTextures' blockName materialPicker modelManager renderType manager
  = (Some (materials, rects), manager') ->
  length materials = length (getSpecialBlocksData modelManager blockName)
  /\ length rects = length (getSpecialBlocksData modelManager blockName)
  /\ Forall (fun rect => length rect = 6%nat) rects.
Proof.
  unfold resolveSpecialTextures.
  destruct (resolveSprites' _ manager) as [[rects' |] m1] eqn:Hsprites;
    [| discriminate].
  intros [= <- <- _]. rewrite !length_map.
  split; [reflexivity |]. now apply resolveSprites_some in Hsprites.
Qed.

(** X25.  [resolveSpecialTextures] fails exactly when some texture slot of
    the block has no atlas entry, or has an animated entry whose first frame
    has none (an empty frame list included). *)
Theorem resolveSpecialTextures_fails_iff (blockName : string)
    (materialPicker : MaterialPicker) (modelManager : BlockStateModelManager)
    (renderType : RenderType) (manager : AnimatedTextureManager) :
  fst (resolveSpecialTextures' blockName materialPicker modelManager renderType
         manager) = None
  <-> Exists (fun texture => ~ resolvable atlasMapping texture)
             (getSpecialBlocksData modelManager blockName).
Proof.
  rewrite <- (resolveSprites_none_iff _ manager).
  unfold resolveSpecialTextures.
  destruct (resolveSprites' _ manager) as [[rects |] m1]; cbn [fst];
    split; (discriminate || reflexivity).
Qed.

(** X26.  When every texture slot of the block has a static rectangle, the
    call succeeds without touching the animated-texture manager, every
    material is the picker's static material of the render pass, and every
    rectangle is the slot's first four numbers followed by the atlas width
    and height. *)
Theorem resolveSpecialTextures_static (blockName : string)
    (materialPicker : MaterialPicker) (modelManager : BlockStateModelManager)
    (renderType : RenderType) (manager : AnimatedTextureManager) :
  Forall (staticSlot atlasMapping) (getSpecialBlocksData modelManager blockName) ->
  exists materials rects,
    resolveSpecialTextures' blockName materialPicker modelManager renderType manager
    = (Some (materials, rects), manager)
    /\ Forall (fun m => m = staticTexture materialPicker renderType) materials
    /\ Forall2
         (fun texture rect =>
            exists sprite,
              atlasMapping !! texture = Some (StaticSprite sprite)
              /\ rect = [sprite !! 0%nat; sprite !! 1%nat; sprite !! 2%nat;
                         sprite !! 3%nat; Some ATLAS_WIDTH; Some ATLAS_HEIGHT])
         (getSpecialBlocksData modelManager blockName) rects.
Proof.
  intros Hstatic. unfold resolveSpecialTextures.
  rewrite (resolveSprites_static _ manager Hstatic).
  do 2 eexists. split; [reflexivity |].
  induction Hstatic as [|texture rest [sprite Hsprite] _ [IHm IHr]]; cbn [map].
  - split; constructor.
  - split.
    + constructor; [| exact IHm]. unfold resolveMaterial. now rewrite Hsprite.
    + constructor; [| exact IHr]. exists sprite. now rewrite Hsprite.
Qed.

End SpecialTextureFacts.

(* ===================================================================== *)
(** ** Worked instances *)
(* ===================================================================== *)

Lemma needRenderModel_names_witness :
  genericModelAlsoRendered (mkEntry (Exact "bell") renderBell (Some true)) = true
  <-> "bell" ∈ ["lectern"; "enchanting_table"; "bell"; "piston_head"].
Proof.
  apply (needRenderModel_names "bell" (mkEntry (Exact "bell") renderBell (Some true))).
  reflexivity.
Defined.

Lemma single_chest_variant : ("single", 0%nat) ∈ chestVariants.
Proof. unfold chestVariants. rewrite !elem_of_cons. auto. Defined.

Lemma renderChest_variant_texture_witness :
  exists bottom lid lock : Fragment,
    scene (renderChest 0%Z 0%Z 0%Z (chestOfType "single") exampleModelManager
             exampleMaterialPicker emptyWorld)
      = scene emptyWorld ++ [bottom; lid; lock]
    /\ console (renderChest 0%Z 0%Z 0%Z (chestOfType "single") exampleModelManager
                  exampleMaterialPicker emptyWorld)
       = console emptyWorld
    /\ Forall
         (fun f =>
            usesTexture
              (getSpecialBlocksData exampleModelManager
                 (blockName (chestOfType "single")) !! 0%nat) f
            /\ baked_rotation (frag_model f)
               = fromFacingToRotation
                   (blockProperties (chestOfType "single") !! "facing"))
         [bottom; lid; lock].
Proof.
  apply (renderChest_variant_texture 0%Z 0%Z 0%Z (chestOfType "single")
           exampleModelManager exampleMaterialPicker emptyWorld "single" 0%nat).
  - exact single_chest_variant.
  - reflexivity.
Defined.

Lemma renderBed_parts_witness :
  (exists slab leftPost rightPost : Fragment,
     scene (renderBed 0%Z 0%Z 0%Z (bedOfPart "foot") exampleModelManager
              exampleMaterialPicker emptyWorld)
       = scene emptyWorld ++ [slab; leftPost; rightPost]
     /\ console (renderBed 0%Z 0%Z 0%Z (bedOfPart "foot") exampleModelManager
                   exampleMaterialPicker emptyWorld)
        = console emptyWorld)
  /\ (scene (renderBed 0%Z 0%Z 0%Z (bedOfPart "middle") exampleModelManager
               exampleMaterialPicker emptyWorld) = scene emptyWorld
      /\ console (renderBed 0%Z 0%Z 0%Z (bedOfPart "middle") exampleModelManager
                    exampleMaterialPicker emptyWorld)
         = console emptyWorld ++ [mkWarning "Unknown bed part" (Some "middle")]).
Proof.
  split.
  - apply (proj1 (renderBed_parts 0%Z 0%Z 0%Z (bedOfPart "foot")
                    exampleModelManager exampleMaterialPicker emptyWorld
                    (Some "foot") eq_refl)).
    now right.
  - apply (proj2 (renderBed_parts 0%Z 0%Z 0%Z (bedOfPart "middle")
                    exampleModelManager exampleMaterialPicker emptyWorld
                    (Some "middle") eq_refl)); discriminate.
Defined.

Lemma renderBanner_fragments_witness :
  exists (bar flag : Fragment),
    scene (renderBanner 0%Z 0%Z 0%Z (mkBlockState "red_wall_banner" ∅)
             exampleModelManager exampleMaterialPicker emptyWorld)
      = scene emptyWorld ++ [bar; flag]
    /\ mat_color (frag_material flag false) = Some 0xb02e26%N.
Proof.
  destruct (renderBanner_fragments 0%Z 0%Z 0%Z (mkBlockState "red_wall_banner" ∅)
              exampleModelManager exampleMaterialPicker emptyWorld)
    as (poles & bar & flag & Hscene & _ & Hwall & _ & _ & Hflag).
  exists bar, flag. split.
  - rewrite Hscene, Hwall; [reflexivity | now exists "red"].
  - now apply (Hflag false).
Defined.

Lemma fromFacingToRotation_range_witness :
  Some "north" ∈ [Some "west"; Some "north"; Some "east"].
Proof.
  apply (proj1 (proj2 (proj2 (fromFacingToRotation_range (Some "north"))))).
  discriminate.
Defined.

Lemma bannerDyeRead_cases_witness :
  bannerDyeRead "banner" = NotFound.
Proof.
  apply (proj1 (proj2 (proj2 (proj2 (bannerDyeRead_cases "banner"))))).
  reflexivity.
Defined.

Example bannerDyeRead_examples :
  bannerDyeRead "red_wall_banner" = OwnNumber 0xb02e26%N
  /\ bannerDyeRead "light_blue_banner" = NotFound
  /\ bannerDyeRead "constructor_banner" = Inherited.
Proof. repeat split; vm_compute; reflexivity. Qed.

Lemma renderShulkerBox_bell_fragments_witness :
  exists lid base : Fragment,
    scene (renderShulkerBox 0%Z 0%Z 0%Z (mkBlockState "shulker_box" ∅)
             exampleModelManager exampleMaterialPicker emptyWorld)
      = scene emptyWorld ++ [lid; base]
    /\ baked_rotation (frag_model lid) = IDENTITY_ROTATION.
Proof.
  destruct (proj1 (renderShulkerBox_bell_fragments 0%Z 0%Z 0%Z
                     (mkBlockState "shulker_box" ∅) exampleModelManager
                     exampleMaterialPicker emptyWorld))
    as (lid & base & Hscene & _ & Hid).
  exists lid, base. split; [exact Hscene |].
  apply Hid. rewrite !elem_of_cons, elem_of_nil. intuition discriminate.
Defined.

Lemma resolveSpecialTextures_lengths_witness :
  exists materials rects,
    resolveSpecialTextures 256 256 1024 nat examplePutNewTexture exampleAtlas
      "chest" exampleMaterialPicker exampleModelManager cutout 0%nat
    = (Some (materials, rects), 0%nat)
    /\ length materials = length (getSpecialBlocksData exampleModelManager "chest")
    /\ length rects = length (getSpecialBlocksData exampleModelManager "chest")
    /\ Forall (fun rect => length rect = 6%nat) rects.
Proof.
  do 2 eexists. split; [reflexivity |].
  apply (resolveSpecialTextures_lengths 256 256 1024 nat examplePutNewTexture
           exampleAtlas "chest" exampleMaterialPicker exampleModelManager cutout
           0%nat 0%nat).
  reflexivity.
Defined.

Lemma example_slots_static :
  Forall (staticSlot exampleAtlas) (getSpecialBlocksData exampleModelManager "chest").
Proof. repeat constructor; now eexists. Defined.

Lemma resolveSpecialTextures_static_witness :
  exists materials rects,
    resolveSpecialTextures 256 256 1024 nat examplePutNewTexture exampleAtlas
      "chest" exampleMaterialPicker exampleModelManager cutout 0%nat
    = (Some (materials, rects), 0%nat)
    /\ Forall (fun m => m = staticTexture exampleMaterialPicker cutout) materials
    /\ Forall2
         (fun texture rect =>
            exists sprite,
              exampleAtlas !! texture = Some (StaticSprite sprite)
              /\ rect = [sprite !! 0%nat; sprite !! 1%nat; sprite !! 2%nat;
                         sprite !! 3%nat; Some 256%Q; Some 256%Q])
         (getSpecialBlocksData exampleModelManager "chest") rects.
Proof.
  apply (resolveSpecialTextures_static 256 256 1024 nat examplePutNewTexture
           exampleAtlas "chest" exampleMaterialPicker exampleModelManager cutout
           0%nat).
  exact example_slots_static.
Defined.
